(** * golang-pomodoro: the timer-and-progress state machine of [main.go]

    The repository holds two drafts of one Bubble Tea program (a pomodoro
    countdown with a progress bar).  Both drafts are embedded here, as
    [V1] (wall-clock progress, 20 s work timer) and [V2] (countdown
    progress, 25 min work timer), over one model of the packages they
    import: [time], [math], [tea], [key], [timer], [progress].

    Conventions of the embedding
    - [time.Duration], [time.Time] and [int] are 64-bit integers: [Z] with
      the wrap-around (or saturation) written out;
    - [float64] is idealised: finite values are exact rationals kept in
      lowest terms, with the two infinities and NaN beside them, so that a
      division by zero is visible instead of being rounded away;
    - a [tea.Cmd] is a description of the messages it will produce;
    - package-level variables ([percent], [start], [timeout], the id
      counters of the libraries) are threaded explicitly as [globals];
    - the runtime of Bubble Tea is the event loop of [Module Loop]. *)

From Stdlib Require Import ZArith QArith Qminmax Qabs List String Bool Lia.
Import ListNotations.
Open Scope Z_scope.

(** ** Machine integers *)

Definition wrap64 (z : Z) : Z := (z + 2 ^ 63) mod 2 ^ 64 - 2 ^ 63.

Definition in_int64 (z : Z) : Prop := - 2 ^ 63 <= z < 2 ^ 63.

(** ** float64, idealised *)

Inductive float64 : Type :=
| Fin (q : Q)
| PInf
| NInf
| NaN.

Module math.

Definition fin (q : Q) : float64 := Fin (Qred q).

Definition is_zero (q : Q) : bool := Qeq_bool q 0.
Definition is_neg (q : Q) : bool := negb (Qle_bool 0 q).

Definition signed_inf (negative : bool) : float64 :=
  if negative then NInf else PInf.

Definition neg (x : float64) : float64 :=
  match x with
  | Fin a => fin (- a)
  | PInf => NInf
  | NInf => PInf
  | NaN => NaN
  end.

Definition add (x y : float64) : float64 :=
  match x, y with
  | NaN, _ | _, NaN => NaN
  | PInf, NInf | NInf, PInf => NaN
  | PInf, _ | _, PInf => PInf
  | NInf, _ | _, NInf => NInf
  | Fin a, Fin b => fin (a + b)
  end.

Definition sub (x y : float64) : float64 := add x (neg y).

Definition is_neg_f (x : float64) : bool :=
  match x with
  | Fin a => is_neg a
  | NInf => true
  | _ => false
  end.

Definition mul (x y : float64) : float64 :=
  match x, y with
  | NaN, _ | _, NaN => NaN
  | Fin a, Fin b => fin (a * b)
  | Fin a, _ =>
      if is_zero a then NaN else signed_inf (xorb (is_neg a) (is_neg_f y))
  | _, Fin b =>
      if is_zero b then NaN else signed_inf (xorb (is_neg_f x) (is_neg b))
  | _, _ => signed_inf (xorb (is_neg_f x) (is_neg_f y))
  end.

(** [x / y] of Go on float64: no panic, a zero divisor gives NaN or an
    infinity. *)
Definition div (x y : float64) : float64 :=
  match x, y with
  | NaN, _ | _, NaN => NaN
  | Fin a, Fin b =>
      if is_zero b
      then (if is_zero a then NaN else signed_inf (is_neg a))
      else fin (a / b)
  | Fin _, _ => fin 0
  | _, Fin b => signed_inf (xorb (is_neg_f x) (is_neg b))
  | _, _ => NaN
  end.

(** [x < y]; false as soon as a NaN is involved. *)
Definition lt (x y : float64) : bool :=
  match x, y with
  | NaN, _ | _, NaN => false
  | Fin a, Fin b => negb (Qle_bool b a)
  | NInf, NInf => false
  | NInf, _ => true
  | _, PInf => match x with PInf => false | _ => true end
  | _, _ => false
  end.

Definition Abs (x : float64) : float64 :=
  match x with
  | Fin a => fin (Qabs a)
  | PInf | NInf => PInf
  | NaN => NaN
  end.

(** [math.Max]: +Inf wins, then NaN. *)
Definition Max (x y : float64) : float64 :=
  match x, y with
  | PInf, _ | _, PInf => PInf
  | NaN, _ | _, NaN => NaN
  | NInf, v | v, NInf => v
  | Fin a, Fin b => if Qle_bool a b then Fin b else Fin a
  end.

(** [math.Min]: -Inf wins, then NaN. *)
Definition Min (x y : float64) : float64 :=
  match x, y with
  | NInf, _ | _, NInf => NInf
  | NaN, _ | _, NaN => NaN
  | PInf, v | v, PInf => v
  | Fin a, Fin b => if Qle_bool a b then Fin a else Fin b
  end.

(** [0 <= x <= 1] on a float64. *)
Definition in_unit (x : float64) : Prop :=
  match x with
  | Fin a => (0 <= a <= 1)%Q
  | _ => False
  end.

Definition finite (x : float64) : Prop :=
  match x with
  | Fin _ => True
  | _ => False
  end.

End math.

(** ** Package time *)

Module time.

Definition Duration := Z.
Definition Time := Z.

Definition Nanosecond : Duration := 1.
Definition Second : Duration := 1000000000.
Definition Minute : Duration := 60 * Second.

Definition maxDuration : Duration := 2 ^ 63 - 1.
Definition minDuration : Duration := - 2 ^ 63.

(** [t.Sub(u)]: the difference, saturated to the range of Duration. *)
Definition Sub (t u : Time) : Duration :=
  Z.max minDuration (Z.min maxDuration (t - u)).

(** [time.Since(t)] at wall-clock reading [now]. *)
Definition Since (now t : Time) : Duration := Sub now t.

(** [d.Seconds()]. *)
Definition Seconds (d : Duration) : float64 :=
  math.fin (d # 1000000000).

End time.

(** ** Messages and commands (package tea)

    Every message type the two drafts can meet, from whichever package it
    comes.  [tickMsg] is the program's own type; no case of [Update] names
    it, so it lands in the [default] branch. *)

Inductive Msg : Type :=
| TickMsg (ID : Z) (Timeout : bool) (tag : Z)   (* timer.TickMsg *)
| StartStopMsg (ID : Z) (running : bool)        (* timer.StartStopMsg *)
| TimeoutMsg (ID : Z)                           (* timer.TimeoutMsg *)
| KeyMsg (k : string)                           (* tea.KeyMsg, by its String() *)
| FrameMsg (id tag : Z)                         (* progress.FrameMsg *)
| WindowSizeMsg (Width Height : Z)              (* tea.WindowSizeMsg *)
| tickMsg (t : time.Time)
| QuitMsg.                                      (* tea.QuitMsg *)

#[local] Unset Elimination Schemes.

(** A [tea.Cmd] is a function the runtime calls later to obtain a message.
    The program builds only four shapes of them. *)
Inductive Cmd : Type :=
| Nil                                            (* the nil Cmd *)
| Emit (m : Msg)                                 (* func() Msg { return m } *)
| After (d : time.Duration) (f : time.Time -> Msg) (* tea.Tick(d, f) *)
| Batch (cs : list Cmd).                         (* tea.Batch(cs...) *)
#[local] Set Elimination Schemes.

Module tea.

Definition Quit : Cmd := Emit QuitMsg.

Definition Tick (d : time.Duration) (f : time.Time -> Msg) : Cmd := After d f.

(** The messages a command gives rise to when the runtime executes it at
    time [now], each with the time at which it becomes available. *)
Fixpoint sched (now : time.Time) (c : Cmd) : list (time.Time * Msg) :=
  match c with
  | Nil => []
  | Emit m => [(now, m)]
  | After d f => [(now + d, f (now + d))]
  | Batch cs => flat_map (sched now) cs
  end.

End tea.

(** ** Package key *)

Module key.

Record Binding : Type :=
  { keys : list string; help : string * string; disabled : bool }.

(** [key.NewBinding(key.WithKeys(ks...), key.WithHelp(k, desc))]. *)
Definition NewBinding (ks : list string) (h : string * string) : Binding :=
  {| keys := ks; help := h; disabled := false |}.

Definition SetEnabled (b : Binding) (v : bool) : Binding :=
  {| keys := keys b; help := help b; disabled := negb v |}.

Definition Enabled (b : Binding) : bool :=
  negb (disabled b) && match keys b with [] => false | _ :: _ => true end.

(** [key.Matches(msg, bs...)]: some enabled binding lists the key. *)
Definition Matches (k : string) (bs : list Binding) : bool :=
  existsb (fun b => existsb (fun s => String.eqb s k && Enabled b) (keys b)) bs.

End key.

(** ** Package timer (bubbles) *)

Module timer.

Record Model : Type :=
  { Timeout : time.Duration; Interval : time.Duration;
    id : Z; tag : Z; running : bool }.

Definition set_Timeout (m : Model) (d : time.Duration) : Model :=
  {| Timeout := d; Interval := Interval m;
     id := id m; tag := tag m; running := running m |}.

Definition set_running (m : Model) (v : bool) : Model :=
  {| Timeout := Timeout m; Interval := Interval m;
     id := id m; tag := tag m; running := v |}.

(** [NewWithInterval]; the package counter [lastID] is passed in and the
    new timer takes the next id. *)
Definition NewWithInterval (lastID : Z) (timeout interval : time.Duration)
  : Model :=
  {| Timeout := timeout; Interval := interval;
     id := wrap64 (lastID + 1); tag := 0; running := true |}.

Definition New (lastID : Z) (timeout : time.Duration) : Model :=
  NewWithInterval lastID timeout time.Second.

Definition Timedout (m : Model) : bool := Timeout m <=? 0.

Definition Running (m : Model) : bool :=
  if Timedout m || negb (running m) then false else true.

Definition tick (m : Model) : Cmd :=
  tea.Tick (Interval m) (fun _ => TickMsg (id m) (Timedout m) (tag m)).

Definition timedout (m : Model) : Cmd :=
  if negb (Timedout m) then Nil else Emit (TimeoutMsg (id m)).

Definition startStop (m : Model) (v : bool) : Cmd :=
  Emit (StartStopMsg (id m) v).

Definition Init (m : Model) : Cmd := tick m.
Definition Start (m : Model) : Cmd := startStop m true.
Definition Stop (m : Model) : Cmd := startStop m false.
Definition Toggle (m : Model) : Cmd := startStop m (negb (Running m)).

Definition foreign (ID : Z) (m : Model) : bool :=
  negb (ID =? 0) && negb (ID =? id m).

Definition Update (m : Model) (msg : Msg) : Model * Cmd :=
  match msg with
  | StartStopMsg ID v =>
      if foreign ID m then (m, Nil)
      else let m := set_running m v in (m, tick m)
  | TickMsg ID _ tg =>
      if negb (Running m) || foreign ID m then (m, Nil)
      else if (0 <? tg) && negb (tg =? tag m) then (m, Nil)
      else
        let m := set_Timeout m (wrap64 (Timeout m - Interval m)) in
        (m, Batch [tick m; timedout m])
  | _ => (m, Nil)
  end.

End timer.

(** ** Package progress (bubbles), with its harmonica spring *)

Module harmonica.

Record Spring : Type :=
  { posPosCoef : float64; posVelCoef : float64;
    velPosCoef : float64; velVelCoef : float64 }.

Definition Update (s : Spring) (pos vel equilibriumPos : float64)
  : float64 * float64 :=
  let oldPos := math.sub pos equilibriumPos in
  let oldVel := vel in
  (math.add (math.add (math.mul oldPos (posPosCoef s))
                      (math.mul oldVel (posVelCoef s))) equilibriumPos,
   math.add (math.mul oldPos (velPosCoef s))
            (math.mul oldVel (velVelCoef s))).

(** The coefficients [NewSpring(FPS(60), 18.0, 1.0)] computes (through
    [math.Exp]), rounded to nine decimals. *)
Definition default : Spring :=
  {| posPosCoef := math.fin (963063687 # 1000000000);
     posVelCoef := math.fin (12346970 # 1000000000);
     velPosCoef := math.fin (- 4000418392 # 1000000000);
     velVelCoef := math.fin (518572754 # 1000000000) |}.

End harmonica.

Module progress.

Record Model : Type :=
  { Width : Z; id : Z; tag : Z;
    targetPercent : float64; percentShown : float64; velocity : float64;
    spring : harmonica.Spring }.

Definition fps : Z := 60.

(** [progress.New(WithDefaultGradient(), WithWidth(w), WithoutPercentage())];
    the colours and the percentage label are rendering options. *)
Definition New (lastID : Z) (w : Z) : Model :=
  {| Width := w; id := wrap64 (lastID + 1); tag := 0;
     targetPercent := Fin 0; percentShown := Fin 0; velocity := Fin 0;
     spring := harmonica.default |}.

Definition set_Width (m : Model) (w : Z) : Model :=
  {| Width := w; id := id m; tag := tag m;
     targetPercent := targetPercent m; percentShown := percentShown m;
     velocity := velocity m; spring := spring m |}.

Definition nextFrame (m : Model) : Cmd :=
  tea.Tick (time.Second / fps) (fun _ => FrameMsg (id m) (tag m)).

(** [SetPercent]: stores the percentage clamped to [0, 1], bumps the tag
    and asks for an animation frame. *)
Definition SetPercent (m : Model) (p : float64) : Model * Cmd :=
  let m := {| Width := Width m; id := id m; tag := wrap64 (tag m + 1);
              targetPercent := math.Max (Fin 0) (math.Min (Fin 1) p);
              percentShown := percentShown m; velocity := velocity m;
              spring := spring m |} in
  (m, nextFrame m).

Definition IsAnimating (m : Model) : bool :=
  let dist := math.Abs (math.sub (percentShown m) (targetPercent m)) in
  negb (math.lt dist (Fin (1 # 1000)) && math.lt (velocity m) (Fin (1 # 100))).

Definition Update (m : Model) (msg : Msg) : Model * Cmd :=
  match msg with
  | FrameMsg i t =>
      if negb (i =? id m) || negb (t =? tag m) then (m, Nil)
      else if negb (IsAnimating m) then (m, Nil)
      else
        let '(p, v) :=
          harmonica.Update (spring m) (percentShown m) (velocity m)
                           (targetPercent m) in
        let m := {| Width := Width m; id := id m; tag := tag m;
                    targetPercent := targetPercent m;
                    percentShown := p; velocity := v;
                    spring := spring m |} in
        (m, nextFrame m)
  | _ => (m, Nil)
  end.

End progress.

(** ** Declarations the two drafts share

    [padding], [maxWidth], [keymap], [model], [tickMsg] and [tickCmd] are
    written identically in both drafts.  The [help] field of [model] only
    formats the key legend and is left out. *)

Definition padding : Z := 2.
Definition maxWidth : Z := 80.

Module keymap.

Record t : Type :=
  { start : key.Binding; pauseTimer : key.Binding; workTimer : key.Binding;
    stop : key.Binding; reset : key.Binding; quit : key.Binding }.

Definition set_start (km : t) (b : key.Binding) : t :=
  {| start := b; pauseTimer := pauseTimer km; workTimer := workTimer km;
     stop := stop km; reset := reset km; quit := quit km |}.

Definition set_stop (km : t) (b : key.Binding) : t :=
  {| start := start km; pauseTimer := pauseTimer km; workTimer := workTimer km;
     stop := b; reset := reset km; quit := quit km |}.

End keymap.

Module model.

Record t : Type :=
  { timer : timer.Model; keymap : keymap.t; quitting : bool;
    progress : progress.Model }.

Definition set_timer (m : t) (x : timer.Model) : t :=
  {| timer := x; keymap := keymap m; quitting := quitting m;
     progress := progress m |}.

Definition set_keymap (m : t) (x : keymap.t) : t :=
  {| timer := timer m; keymap := x; quitting := quitting m;
     progress := progress m |}.

Definition set_quitting (m : t) (x : bool) : t :=
  {| timer := timer m; keymap := keymap m; quitting := x;
     progress := progress m |}.

Definition set_progress (m : t) (x : progress.Model) : t :=
  {| timer := timer m; keymap := keymap m; quitting := quitting m;
     progress := x |}.

(** [m.keymap.stop.SetEnabled(v)] and [m.keymap.start.SetEnabled(v)]. *)
Definition stop_SetEnabled (m : t) (v : bool) : t :=
  set_keymap m (keymap.set_stop (keymap m)
                  (key.SetEnabled (keymap.stop (keymap m)) v)).

Definition start_SetEnabled (m : t) (v : bool) : t :=
  set_keymap m (keymap.set_start (keymap m)
                  (key.SetEnabled (keymap.start (keymap m)) v)).

End model.

Definition tickCmd : Cmd :=
  tea.Tick (time.Minute * 1) (fun t => tickMsg t).

(** The key bindings [main] installs (the same in both drafts). *)
Definition main_keymap : keymap.t :=
  {| keymap.start := key.NewBinding ["s"; " "]%string ("s", "start")%string;
     keymap.stop := key.NewBinding ["s"; " "]%string ("s", "stop")%string;
     keymap.reset := key.NewBinding ["r"]%string ("r", "reset")%string;
     keymap.quit := key.NewBinding ["q"; "ctrl+c"]%string ("q", "quit")%string;
     keymap.pauseTimer :=
       key.NewBinding ["p"]%string ("p", "start break")%string;
     keymap.workTimer :=
       key.NewBinding ["w"]%string ("w", "start work")%string |}.

(** The branch the [switch] over [key.Matches] takes for a key press; the
    cases are tried in the order in which [Update] lists them. *)
Inductive Command : Type :=
| KQuit | KReset | KStartStop | KPause | KWork.

Definition command (km : keymap.t) (k : string) : option Command :=
  if key.Matches k [keymap.quit km] then Some KQuit
  else if key.Matches k [keymap.reset km] then Some KReset
  else if key.Matches k [keymap.start km; keymap.stop km] then Some KStartStop
  else if key.Matches k [keymap.pauseTimer km] then Some KPause
  else if key.Matches k [keymap.workTimer km] then Some KWork
  else None.

(** The [tea.WindowSizeMsg] case, the same in both drafts. *)
Definition resize (m : model.t) (width : Z) : model.t :=
  let m :=
    model.set_progress m
      (progress.set_Width (model.progress m)
         (wrap64 (width - padding * 2 - 4))) in
  if maxWidth <? progress.Width (model.progress m)
  then model.set_progress m (progress.set_Width (model.progress m) maxWidth)
  else m.

(** The [timer.StartStopMsg] case, the same in both drafts. *)
Definition on_StartStop (m : model.t) (msg : Msg) : model.t * Cmd :=
  let '(t, cmd) := timer.Update (model.timer m) msg in
  let m := model.set_timer m t in
  let m := model.stop_SetEnabled m (timer.Running (model.timer m)) in
  let m := model.start_SetEnabled m (negb (timer.Running (model.timer m))) in
  (m, cmd).

(** The [timer.TimeoutMsg] case, the same in both drafts. *)
Definition on_Timeout (m : model.t) (msg : Msg) : model.t * Cmd :=
  let '(t, cmd) := timer.Update (model.timer m) msg in
  let m := model.set_timer m t in
  let m := model.set_quitting m true in
  let m := model.stop_SetEnabled m (timer.Running (model.timer m)) in
  let m := model.start_SetEnabled m (negb (timer.Running (model.timer m))) in
  (m, cmd).

(** The [progress.FrameMsg] case, the same in both drafts. *)
Definition on_Frame (m : model.t) (msg : Msg) : model.t * Cmd :=
  let '(p, cmd) := progress.Update (model.progress m) msg in
  (model.set_progress m p, cmd).

(** What the rendering collaborator reads off the clock. *)
Definition remaining (m : model.t) : time.Duration :=
  timer.Timeout (model.timer m).
Definition running (m : model.t) : bool := timer.Running (model.timer m).
Definition timedOut (m : model.t) : bool := timer.Timedout (model.timer m).
Definition startEnabled (m : model.t) : bool :=
  key.Enabled (keymap.start (model.keymap m)).
Definition stopEnabled (m : model.t) : bool :=
  key.Enabled (keymap.stop (model.keymap m)).

(** ** The Bubble Tea runtime

    One serial loop: commands returned by [Update] are executed on the side
    and their messages queue up; the loop hands over one message at a time.
    Which queued message comes next, and when the user presses a key, is
    not determined, so the loop is driven by a list of [Event]s.

    [target] is a ghost field: the timer stores only what remains, and
    [target] remembers the duration it was last set to count down from
    (by [main], or by the reset / break / work key). *)

Inductive Event : Type :=
| Wait (d : time.Duration)      (* wall-clock time passes *)
| Deliver (n : nat)             (* the n-th queued message is handed over *)
| Press (k : string)            (* the user presses a key *)
| Resize (w h : Z).             (* the terminal is resized *)

(** The key commands that set the timer to a new duration. *)
Definition retargets (km : keymap.t) (msg : Msg) : bool :=
  match msg with
  | KeyMsg k =>
      match command km k with
      | Some KReset | Some KPause | Some KWork => true
      | _ => false
      end
  | _ => false
  end.

Module Loop.

Section Runtime.

Variable globals : Type.
Variable Update :
  time.Time -> globals -> model.t -> Msg -> model.t * Cmd * globals.

Record Config : Type :=
  { cur : model.t; glob : globals; pending : list (time.Time * Msg);
    now : time.Time; halted : bool; target : time.Duration }.

Definition handle (c : Config) (msg : Msg) : Config :=
  let '(m, cmd, g) := Update (now c) (glob c) (cur c) msg in
  {| cur := m; glob := g;
     pending := pending c ++ tea.sched (now c) cmd;
     now := now c; halted := halted c;
     target := if retargets (model.keymap (cur c)) msg
               then remaining m else target c |}.

Definition take (n : nat) (c : Config) : Config :=
  {| cur := cur c; glob := glob c;
     pending := firstn n (pending c) ++ skipn (S n) (pending c);
     now := now c; halted := halted c; target := target c |}.

Definition halt (c : Config) : Config :=
  {| cur := cur c; glob := glob c; pending := pending c;
     now := now c; halted := true; target := target c |}.

Definition advance (d : time.Duration) (c : Config) : Config :=
  {| cur := cur c; glob := glob c; pending := pending c;
     now := now c + d; halted := halted c; target := target c |}.

Definition step (c : Config) (e : Event) : option Config :=
  if halted c then None
  else
    match e with
    | Wait d => if 0 <=? d then Some (advance d c) else None
    | Deliver n =>
        match nth_error (pending c) n with
        | Some (due, msg) =>
            if due <=? now c
            then match msg with
                 | QuitMsg => Some (halt (take n c))
                 | _ => Some (handle (take n c) msg)
                 end
            else None
        | None => None
        end
    | Press k => Some (handle c (KeyMsg k))
    | Resize w h => Some (handle c (WindowSizeMsg w h))
    end.

Fixpoint run (evs : list Event) (c : Config) : option Config :=
  match evs with
  | [] => Some c
  | e :: evs =>
      match step c e with
      | Some c => run evs c
      | None => None
      end
  end.

(** [tea.NewProgram(m).Run()] started at wall-clock time [t0]. *)
Definition boot (m : model.t) (g : globals) (init : Cmd) (t0 : time.Time)
  : Config :=
  {| cur := m; glob := g; pending := tea.sched t0 init;
     now := t0; halted := false; target := remaining m |}.

End Runtime.

End Loop.

Arguments Loop.cur {globals} _.
Arguments Loop.glob {globals} _.
Arguments Loop.pending {globals} _.
Arguments Loop.now {globals} _.
Arguments Loop.halted {globals} _.
Arguments Loop.target {globals} _.
Arguments Loop.boot {globals} _ _ _ _.

(** ** First draft: progress from the wall clock *)

Module V1.

Definition timeout : time.Duration := time.Second * 20.
Definition breakTime : time.Duration := time.Minute * 5.

(** The package-level variables [percent] and [start]. *)
Record globals : Type := { percent : float64; start : time.Time }.

Definition Init (m : model.t) : Cmd :=
  Batch [timer.Init (model.timer m); tickCmd].

(** [percent = elapsed.Seconds() / timeout.Seconds()] of the tick case. *)
Definition progress_of (now : time.Time) (g : globals) : float64 :=
  let elapsed := time.Since now (start g) in
  math.div (time.Seconds elapsed) (time.Seconds timeout).

Definition Update (now : time.Time) (g : globals) (m : model.t) (msg : Msg)
  : model.t * Cmd * globals :=
  match msg with
  | TickMsg _ _ _ =>
      let '(t, cmd) := timer.Update (model.timer m) msg in
      let m := model.set_timer m t in
      let g := {| percent := progress_of now g; start := start g |} in
      let '(p, progressCmd) :=
        progress.SetPercent (model.progress m) (percent g) in
      let m := model.set_progress m p in
      (m, Batch [tickCmd; cmd; progressCmd], g)
  | StartStopMsg _ _ =>
      let '(m, cmd) := on_StartStop m msg in (m, cmd, g)
  | TimeoutMsg _ =>
      let '(m, cmd) := on_Timeout m msg in (m, cmd, g)
  | KeyMsg k =>
      match command (model.keymap m) k with
      | Some KQuit => (model.set_quitting m true, tea.Quit, g)
      | Some KReset =>
          (* "Stop and reinitialize the Timer": both commands are built
             and dropped *)
          let _ := timer.Stop (model.timer m) in
          let _ := Init m in
          let m := model.set_timer m (timer.set_Timeout (model.timer m) timeout) in
          let g := {| percent := Fin 0; start := now |} in
          let m := model.start_SetEnabled m false in
          (m, Nil, g)
      | Some KStartStop => (m, timer.Toggle (model.timer m), g)
      | Some KPause =>
          let m := model.set_timer m (timer.set_Timeout (model.timer m) breakTime) in
          (m, timer.Start (model.timer m), g)
      | Some KWork =>
          let m := model.set_timer m (timer.set_Timeout (model.timer m) timeout) in
          (m, timer.Start (model.timer m), g)
      | None => (m, Nil, g)
      end
  | FrameMsg _ _ =>
      let '(m, cmd) := on_Frame m msg in (m, cmd, g)
  | WindowSizeMsg w _ => (resize m w, Nil, g)
  | _ => (m, Nil, g)
  end.

(** The model [main] builds: a running 20 s timer ticking every second,
    a 40 column bar, and the start binding disabled. *)
Definition main : model.t :=
  model.start_SetEnabled
    {| model.timer := timer.NewWithInterval 0 timeout time.Second;
       model.progress := progress.New 0 40;
       model.keymap := main_keymap;
       model.quitting := false |}
    false.

Definition Config : Type := Loop.Config globals.
Definition step : Config -> Event -> option Config := Loop.step globals Update.
Definition run : list Event -> Config -> option Config :=
  Loop.run globals Update.

(** The program as started at [t0]: [start = time.Now()], [percent = 0.0]. *)
Definition boot (t0 : time.Time) : Config :=
  Loop.boot main {| percent := Fin 0; start := t0 |} (Init main) t0.

Inductive reachable : Config -> Prop :=
| reach_boot (t0 : time.Time) : reachable (boot t0)
| reach_step (c c' : Config) (e : Event) :
    reachable c -> step c e = Some c' -> reachable c'.

End V1.

(** ** Second draft: progress from the countdown *)

Module V2.

(** The package-level variables [timeout] and [percent], and the id counter
    of package timer, which [timer.New] advances. *)
Record globals : Type :=
  { timeout : time.Duration; percent : float64; timer_lastID : Z }.

Definition Init (m : model.t) : Cmd :=
  Batch [tickCmd; timer.Stop (model.timer m)].

(** [percent = (timeout.Seconds() - m.timer.Timeout.Seconds())
               / timeout.Seconds()] of the tick case. *)
Definition progress_of (g : globals) (t : timer.Model) : float64 :=
  math.div (math.sub (time.Seconds (timeout g))
                     (time.Seconds (timer.Timeout t)))
           (time.Seconds (timeout g)).

(** [m.timer = timer.New(d)], with the id counter advanced. *)
Definition new_timer (g : globals) (m : model.t) (d : time.Duration)
  : model.t * globals :=
  (model.set_timer m (timer.New (timer_lastID g) d),
   {| timeout := timeout g; percent := percent g;
      timer_lastID := wrap64 (timer_lastID g + 1) |}).

Definition Update (now : time.Time) (g : globals) (m : model.t) (msg : Msg)
  : model.t * Cmd * globals :=
  match msg with
  | TickMsg _ _ _ =>
      let g := {| timeout := timeout g;
                  percent := progress_of g (model.timer m);
                  timer_lastID := timer_lastID g |} in
      let '(p, progressCmd) :=
        progress.SetPercent (model.progress m) (percent g) in
      let m := model.set_progress m p in
      let '(t, cmd) := timer.Update (model.timer m) msg in
      let m := model.set_timer m t in
      (m, Batch [progressCmd; cmd], g)
  | StartStopMsg _ _ =>
      let '(m, cmd) := on_StartStop m msg in (m, cmd, g)
  | TimeoutMsg _ =>
      let '(m, cmd) := on_Timeout m msg in (m, cmd, g)
  | KeyMsg k =>
      match command (model.keymap m) k with
      | Some KQuit => (model.set_quitting m true, tea.Quit, g)
      | Some KReset =>
          let '(p, progressCmd) :=
            progress.SetPercent (model.progress m) (Fin 0) in
          let m := model.set_progress m p in
          let '(m, g) := new_timer g m (timeout g) in
          let m := model.start_SetEnabled m true in
          (m, Batch [progressCmd; timer.Stop (model.timer m)], g)
      | Some KStartStop => (m, timer.Toggle (model.timer m), g)
      | Some KPause =>
          let '(p, progressCmd) :=
            progress.SetPercent (model.progress m) (Fin 0) in
          let m := model.set_progress m p in
          let pause := time.Minute * 5 in
          let '(m, g) := new_timer g m pause in
          (m, Batch [progressCmd; timer.Start (model.timer m)], g)
      | Some KWork =>
          let '(p, progressCmd) :=
            progress.SetPercent (model.progress m) (Fin 0) in
          let m := model.set_progress m p in
          let g := {| timeout := time.Minute * 25; percent := percent g;
                      timer_lastID := timer_lastID g |} in
          let '(m, g) := new_timer g m (timeout g) in
          (m, Batch [progressCmd; timer.Start (model.timer m)], g)
      | None => (m, Nil, g)
      end
  | FrameMsg _ _ =>
      let '(m, cmd) := on_Frame m msg in (m, cmd, g)
  | WindowSizeMsg w _ => (resize m w, Nil, g)
  | _ => (m, Nil, g)
  end.

(** The model [main] builds: a 25 min timer from [timer.New] (created
    running), a 40 column bar, and the stop binding disabled. *)
Definition main : model.t :=
  model.stop_SetEnabled
    {| model.timer := timer.New 0 (time.Minute * 25);
       model.progress := progress.New 0 40;
       model.keymap := main_keymap;
       model.quitting := false |}
    false.

Definition Config : Type := Loop.Config globals.
Definition step : Config -> Event -> option Config := Loop.step globals Update.
Definition run : list Event -> Config -> option Config :=
  Loop.run globals Update.

(** The program as started: [timeout = 25 min], [percent = 0.0], one timer
    id handed out. *)
Definition boot (t0 : time.Time) : Config :=
  Loop.boot main
    {| timeout := time.Minute * 25; percent := Fin 0; timer_lastID := 1 |}
    (Init main) t0.

Inductive reachable : Config -> Prop :=
| reach_boot (t0 : time.Time) : reachable (boot t0)
| reach_step (c c' : Config) (e : Event) :
    reachable c -> step c e = Some c' -> reachable c'.

End V2.

(** ** Vocabulary of the properties *)

(** A clock counting down from [tgt] in whole seconds. *)
Definition clock_ok (t : timer.Model) (tgt : time.Duration) : Prop :=
  timer.Interval t = time.Second /\
  (time.Second | timer.Timeout t) /\
  0 <= timer.Timeout t <= tgt /\
  tgt <= time.Minute * 25.

(** The invariant of the Duration Clock as the specification words it. *)
Definition clock_inv (m : model.t) (tgt : time.Duration) : Prop :=
  0 <= remaining m <= tgt /\
  (timedOut m = true <-> remaining m = 0) /\
  (timedOut m = true -> running m = false).

(** The start and stop bindings have keys (as [main] gives them). *)
Definition keys_ok (km : keymap.t) : Prop :=
  key.keys (keymap.start km) <> [] /\ key.keys (keymap.stop km) <> [].

(** A property of model, package-level variables and target, read at a
    state of the loop. *)
Definition holds {G : Type} (P : model.t -> G -> time.Duration -> Prop)
    (c : Loop.Config G) : Prop :=
  P (Loop.cur c) (Loop.glob c) (Loop.target c).

(** What holds of the first draft in every state of the loop. *)
Definition inv1 (m : model.t) (g : V1.globals) (tgt : time.Duration) : Prop :=
  clock_ok (model.timer m) tgt /\
  keys_ok (model.keymap m) /\
  math.in_unit (progress.targetPercent (model.progress m)).

(** What holds of the second draft in every state of the loop. *)
Definition inv2 (m : model.t) (g : V2.globals) (tgt : time.Duration) : Prop :=
  clock_ok (model.timer m) tgt /\
  keys_ok (model.keymap m) /\
  math.in_unit (progress.targetPercent (model.progress m)) /\
  V2.timeout g = time.Minute * 25.

(** The Duration Clock of a state of the loop: target, remaining time,
    running flag and timed-out flag. *)
Definition clock {G : Type} (c : Loop.Config G)
  : time.Duration * time.Duration * bool * bool :=
  (Loop.target c, remaining (Loop.cur c), running (Loop.cur c),
   timedOut (Loop.cur c)).

(** What a resize may change: the width of the bar and nothing else. *)
Definition only_width {G : Type} (w : Z) (c c' : Loop.Config G) : Prop :=
  let m := Loop.cur c in
  let m' := Loop.cur c' in
  clock c' = clock c /\
  model.timer m' = model.timer m /\
  model.keymap m' = model.keymap m /\
  model.quitting m' = model.quitting m /\
  Loop.glob c' = Loop.glob c /\
  progress.targetPercent (model.progress m') =
  progress.targetPercent (model.progress m) /\
  progress.percentShown (model.progress m') =
  progress.percentShown (model.progress m) /\
  Loop.pending c' = Loop.pending c /\
  Loop.now c' = Loop.now c /\
  Loop.halted c' = Loop.halted c /\
  progress.Width (model.progress m') =
  Z.min maxWidth (wrap64 (w - padding * 2 - 4)).

(** The messages on which [Update] recomputes the two enabled flags. *)
Definition refreshes (msg : Msg) : bool :=
  match msg with
  | StartStopMsg _ _ | TimeoutMsg _ => true
  | _ => false
  end.

Module Spec.

(** The progress value in the words of the specification's data model:
    [(targetDuration - remaining) / targetDuration], clamped to [0, 1]. *)
Definition percent (targetDuration remaining : time.Duration) : Q :=
  Qmax 0 (Qmin 1 (inject_Z (targetDuration - remaining)
                  / inject_Z targetDuration)).

End Spec.

(** Equality of float64 values (finite ones as rationals). *)
Definition same_float (x y : float64) : Prop :=
  match x, y with
  | Fin a, Fin b => (a == b)%Q
  | PInf, PInf | NInf, NInf => True
  | _, _ => False
  end.

(** ** Example runs

    [second_ticks n] is the first draft left alone for [n] seconds: each
    second the timer's tick message (which sits at the even positions of the
    queue, between the one-minute [tickMsg]s and the animation frames) is
    handed over. *)
Definition second_ticks (n : nat) : list Event :=
  flat_map (fun k => [Wait time.Second; Deliver (2 * k)]) (seq 0 n).

(** The first draft run to its timeout: twenty ticks, then the
    [timer.TimeoutMsg] the last tick emitted. *)
Definition to_timeout : list Event := second_ticks 20 ++ [Deliver 41].

(** ** Vocabulary of the further properties *)

(** The key bindings are the ones [main] installs, up to the enabled flags
    of start and stop, the only thing [Update] ever changes in them. *)
Definition keymap_fixed (km : keymap.t) : Prop :=
  key.keys (keymap.start km) = ["s"; " "]%string /\
  key.keys (keymap.stop km) = ["s"; " "]%string /\
  keymap.reset km = keymap.reset main_keymap /\
  keymap.quit km = keymap.quit main_keymap /\
  keymap.pauseTimer km = keymap.pauseTimer main_keymap /\
  keymap.workTimer km = keymap.workTimer main_keymap.

(** The keys some binding of [main] lists. *)
Definition bound_keys : list string :=
  ["q"; "ctrl+c"; "r"; "s"; " "; "p"; "w"]%string.

(** The toggle key does something: Start or Stop is enabled. *)
Definition toggle_live (m : model.t) : bool :=
  startEnabled m || stopEnabled m.

(** The tick message the session's timer addresses to itself
    ([timer.tick]). *)
Definition own_tick (m : model.t) : Msg :=
  TickMsg (timer.id (model.timer m)) (timer.Timedout (model.timer m))
          (timer.tag (model.timer m)).

(** A tick message the session's timer accepts: sent to it or to every
    timer (id 0), and carrying no other tag than its own. *)
Definition accepted_tick (m : model.t) (msg : Msg) : Prop :=
  exists ID flag tg,
    msg = TickMsg ID flag tg /\
    (ID = 0 \/ ID = timer.id (model.timer m)) /\
    (tg <= 0 \/ tg = timer.tag (model.timer m)).

(** [n] of its own ticks handed to the session one after the other. *)
Definition ticks {G : Type}
    (Update : time.Time -> G -> model.t -> Msg -> model.t * Cmd * G)
    (n : nat) (c : Loop.Config G) : Loop.Config G :=
  Nat.iter n (fun c => Loop.handle G Update c (own_tick (Loop.cur c))) c.

(** The toggle key followed by the start/stop message it sends. *)
Definition toggle {G : Type}
    (Update : time.Time -> G -> model.t -> Msg -> model.t * Cmd * G)
    (k : string) (c : Loop.Config G) : Loop.Config G :=
  let c1 := Loop.handle G Update c (KeyMsg k) in
  Loop.handle G Update c1
    (StartStopMsg (timer.id (model.timer (Loop.cur c1)))
                  (negb (running (Loop.cur c1)))).

(** The messages a command puts in the queue when executed at [now]. *)
Definition emits (now : time.Time) (cmd : Cmd) (x : time.Time * Msg) : Prop :=
  In x (tea.sched now cmd).

Definition is_TickMsg (msg : Msg) : bool :=
  match msg with TickMsg _ _ _ => true | _ => false end.

(** Further facts kept by the loop of the first draft. *)
Definition xinv1 (m : model.t) (g : V1.globals) (tgt : time.Duration) : Prop :=
  inv1 m g tgt /\
  keymap_fixed (model.keymap m) /\
  progress.Width (model.progress m) <= maxWidth.

(** Further facts kept by the loop of the second draft. *)
Definition xinv2 (m : model.t) (g : V2.globals) (tgt : time.Duration) : Prop :=
  inv2 m g tgt /\
  keymap_fixed (model.keymap m) /\
  progress.Width (model.progress m) <= maxWidth /\
  timer.id (model.timer m) = V2.timer_lastID g /\
  in_int64 (V2.timer_lastID g) /\
  toggle_live m = true.

(** * Properties *)

Arguments wrap64 : simpl never.
Arguments time.Seconds : simpl never.
Arguments math.Max : simpl never.
Arguments math.Min : simpl never.
Arguments math.div : simpl never.
Arguments math.sub : simpl never.
Arguments timer.Update : simpl never.
Arguments V1.progress_of : simpl never.
Arguments V2.progress_of : simpl never.
Arguments command : simpl never.

(** ** Machine integers and the clock of package timer *)

Lemma wrap64_small (z : Z) : in_int64 z -> wrap64 z = z.
Proof.
  unfold in_int64, wrap64. intros H.
  rewrite Z.mod_small by lia. lia.
Qed.

Lemma timer_Update_frame (t : timer.Model) (msg : Msg) :
  let t' := fst (timer.Update t msg) in
  timer.Interval t' = timer.Interval t /\
  timer.id t' = timer.id t /\
  timer.tag t' = timer.tag t /\
  (timer.Timeout t' = timer.Timeout t \/
   (timer.Running t = true /\
    timer.Timeout t' = wrap64 (timer.Timeout t - timer.Interval t))).
Proof.
  destruct msg; unfold timer.Update; simpl; try tauto.
  - destruct (timer.Running t) eqn:R; simpl; try tauto.
    destruct (timer.foreign ID t); simpl; try tauto.
    destruct ((0 <? tag) && negb (tag =? timer.tag t)); simpl; tauto.
  - destruct (timer.foreign ID t); simpl; tauto.
Qed.

Lemma Running_positive (t : timer.Model) :
  timer.Running t = true -> 0 < timer.Timeout t /\ timer.running t = true.
Proof.
  unfold timer.Running, timer.Timedout.
  destruct (timer.Timeout t <=? 0) eqn:E; simpl; [discriminate|].
  destruct (timer.running t); simpl; [|discriminate].
  intros _. apply Z.leb_gt in E. auto.
Qed.

Lemma Timedout_not_Running (t : timer.Model) :
  timer.Timedout t = true -> timer.Running t = false.
Proof. unfold timer.Running. intros ->. reflexivity. Qed.

Lemma timer_Update_ok (t : timer.Model) (msg : Msg) (tgt : time.Duration) :
  clock_ok t tgt -> clock_ok (fst (timer.Update t msg)) tgt.
Proof.
  intros (Hi & [k Hk] & Hr & Ht).
  destruct (timer_Update_frame t msg) as (Ei & _ & _ & [E | [R E]]);
    unfold clock_ok; rewrite Ei, E.
  - repeat split; try tauto. exists k; exact Hk.
  - apply Running_positive in R. destruct R as [R _].
    rewrite Hi in *. unfold time.Minute, time.Second in *.
    rewrite wrap64_small by (unfold in_int64; lia).
    repeat split; try lia. exists (k - 1). lia.
Qed.

Lemma clock_ok_set (t : timer.Model) (d : time.Duration) :
  timer.Interval t = time.Second ->
  (time.Second | d) -> 0 <= d <= time.Minute * 25 ->
  clock_ok (timer.set_Timeout t d) d.
Proof. intros Hi Hd Hr. unfold clock_ok; simpl. repeat split; tauto || lia. Qed.

Lemma clock_ok_New (lastID : Z) (d : time.Duration) :
  (time.Second | d) -> 0 <= d <= time.Minute * 25 ->
  clock_ok (timer.New lastID d) d.
Proof. intros Hd Hr. unfold clock_ok; simpl. repeat split; tauto || lia. Qed.

Lemma clock_ok_inv (m : model.t) (tgt : time.Duration) :
  clock_ok (model.timer m) tgt -> clock_inv m tgt.
Proof.
  intros (_ & _ & Hr & _). unfold clock_inv, remaining, timedOut, running.
  split; [exact Hr|]. split.
  - unfold timer.Timedout. rewrite Z.leb_le. lia.
  - apply Timedout_not_Running.
Qed.

(** ** The progress bar *)

Lemma clamp_in_unit (p : float64) :
  p <> NaN -> math.in_unit (math.Max (Fin 0) (math.Min (Fin 1) p)).
Proof.
  destruct p as [a| | |]; intros Hp; try congruence;
    unfold math.Min; cbn.
  - destruct (Qle_bool 1 a) eqn:E1; unfold math.Max; cbn.
    + split; [discriminate | apply Qle_refl].
    + destruct (Qle_bool 0 a) eqn:E0; cbn.
      * apply Qle_bool_iff in E0. split; [exact E0|].
        destruct (Qlt_le_dec a 1) as [L|L]; [apply Qlt_le_weak; exact L|].
        apply Qle_bool_iff in L. congruence.
      * split; [apply Qle_refl | discriminate].
  - unfold math.Max; cbn. split; [discriminate | apply Qle_refl].
  - unfold math.Max; cbn. split; [apply Qle_refl | discriminate].
Qed.

Lemma SetPercent_target (p : progress.Model) (x : float64) :
  progress.targetPercent (fst (progress.SetPercent p x)) =
  math.Max (Fin 0) (math.Min (Fin 1) x).
Proof. reflexivity. Qed.

Lemma progress_Update_target (p : progress.Model) (msg : Msg) :
  progress.targetPercent (fst (progress.Update p msg)) =
  progress.targetPercent p.
Proof.
  destruct msg; simpl; try reflexivity.
  destruct (negb (id =? progress.id p) || negb (tag =? progress.tag p));
    [reflexivity|].
  destruct (negb (progress.IsAnimating p)); [reflexivity|].
  reflexivity.
Qed.

Lemma div_finite (a b : Q) :
  math.is_zero b = false -> math.div (Fin a) (Fin b) = math.fin (a / b).
Proof. intros H. unfold math.div. rewrite H. reflexivity. Qed.

Lemma Seconds_nonzero (d : time.Duration) :
  d <> 0 ->
  exists q, time.Seconds d = Fin q /\ math.is_zero q = false /\
            (q == d # 1000000000)%Q.
Proof.
  intros Hd. exists (Qred (d # 1000000000)). split; [reflexivity|]. split.
  - unfold math.is_zero. destruct (Qeq_bool _ 0) eqn:E; [|reflexivity].
    apply Qeq_bool_iff in E. rewrite Qred_correct in E.
    unfold Qeq in E; simpl in E. lia.
  - apply Qred_correct.
Qed.

(** ** What the shared cases of [Update] touch *)

Lemma Enabled_SetEnabled (b : key.Binding) (v : bool) :
  key.keys b <> [] -> key.Enabled (key.SetEnabled b v) = v.
Proof.
  intros H. unfold key.Enabled; simpl.
  destruct (key.keys b); [congruence|]. destruct v; reflexivity.
Qed.

Lemma on_StartStop_frame (m : model.t) (msg : Msg) :
  let m' := fst (on_StartStop m msg) in
  model.timer m' = fst (timer.Update (model.timer m) msg) /\
  model.quitting m' = model.quitting m /\
  model.progress m' = model.progress m /\
  snd (on_StartStop m msg) = snd (timer.Update (model.timer m) msg) /\
  (keys_ok (model.keymap m) ->
   keys_ok (model.keymap m') /\
   stopEnabled m' = running m' /\ startEnabled m' = negb (running m')) /\
  command (model.keymap m') = command
    (keymap.set_start
       (keymap.set_stop (model.keymap m)
          (key.SetEnabled (keymap.stop (model.keymap m)) (running m')))
       (key.SetEnabled (keymap.start (model.keymap m)) (negb (running m')))).
Proof.
  unfold on_StartStop.
  destruct (timer.Update (model.timer m) msg) as [t cmd]; simpl.
  repeat split; try reflexivity; destruct H as [Hs Hp];
    unfold stopEnabled, startEnabled, running; simpl;
    try assumption; apply Enabled_SetEnabled; assumption.
Qed.

Lemma on_Timeout_frame (m : model.t) (msg : Msg) :
  let m' := fst (on_Timeout m msg) in
  model.timer m' = fst (timer.Update (model.timer m) msg) /\
  model.quitting m' = true /\
  model.progress m' = model.progress m /\
  snd (on_Timeout m msg) = snd (timer.Update (model.timer m) msg) /\
  (keys_ok (model.keymap m) ->
   keys_ok (model.keymap m') /\
   stopEnabled m' = running m' /\ startEnabled m' = negb (running m')).
Proof.
  unfold on_Timeout.
  destruct (timer.Update (model.timer m) msg) as [t cmd]; simpl.
  repeat split; try reflexivity; destruct H as [Hs Hp];
    unfold stopEnabled, startEnabled, running; simpl;
    try assumption; apply Enabled_SetEnabled; assumption.
Qed.

Lemma on_Frame_frame (m : model.t) (msg : Msg) :
  let m' := fst (on_Frame m msg) in
  model.timer m' = model.timer m /\
  model.keymap m' = model.keymap m /\
  model.quitting m' = model.quitting m /\
  progress.targetPercent (model.progress m') =
  progress.targetPercent (model.progress m).
Proof.
  unfold on_Frame.
  pose proof (progress_Update_target (model.progress m) msg) as H.
  destruct (progress.Update (model.progress m) msg) as [p cmd]; simpl in *.
  repeat split; try reflexivity. exact H.
Qed.

Lemma resize_frame (m : model.t) (w : Z) :
  let m' := resize m w in
  model.timer m' = model.timer m /\
  model.keymap m' = model.keymap m /\
  model.quitting m' = model.quitting m /\
  progress.targetPercent (model.progress m') =
  progress.targetPercent (model.progress m) /\
  progress.percentShown (model.progress m') =
  progress.percentShown (model.progress m) /\
  progress.velocity (model.progress m') = progress.velocity (model.progress m) /\
  progress.id (model.progress m') = progress.id (model.progress m) /\
  progress.tag (model.progress m') = progress.tag (model.progress m) /\
  progress.spring (model.progress m') = progress.spring (model.progress m) /\
  progress.Width (model.progress m') =
  Z.min maxWidth (wrap64 (w - padding * 2 - 4)).
Proof.
  unfold resize.
  set (x := wrap64 (w - padding * 2 - 4)).
  cbn [model.progress model.set_progress progress.Width progress.set_Width].
  destruct (maxWidth <? x) eqn:E; cbn; repeat split; try reflexivity.
  - apply Z.ltb_lt in E. unfold maxWidth in *. lia.
  - apply Z.ltb_ge in E. unfold maxWidth in *. lia.
Qed.

(** ** Invariants of the event loop *)

Section LoopInvariant.

Variable globals : Type.
Variable Update :
  time.Time -> globals -> model.t -> Msg -> model.t * Cmd * globals.
Variable P : model.t -> globals -> time.Duration -> Prop.

Hypothesis Update_P :
  forall now g m msg tgt,
    P m g tgt ->
    P (fst (fst (Update now g m msg))) (snd (Update now g m msg))
      (if retargets (model.keymap m) msg
       then remaining (fst (fst (Update now g m msg))) else tgt).

Lemma handle_holds (c : Loop.Config globals) (msg : Msg) :
  holds P c -> holds P (Loop.handle globals Update c msg).
Proof.
  unfold holds, Loop.handle. intros H.
  pose proof (Update_P (Loop.now c) _ _ msg _ H) as H'.
  destruct (Update (Loop.now c) (Loop.glob c) (Loop.cur c) msg) as [[m cmd] g].
  exact H'.
Qed.

Lemma step_holds (c c' : Loop.Config globals) (e : Event) :
  holds P c -> Loop.step globals Update c e = Some c' -> holds P c'.
Proof.
  intros H. unfold Loop.step.
  destruct (Loop.halted c); [discriminate|].
  destruct e as [d|n|k|w h].
  - destruct (0 <=? d); [|discriminate]. intros [= <-]. exact H.
  - destruct (nth_error (Loop.pending c) n) as [[due msg]|]; [|discriminate].
    destruct (due <=? Loop.now c); [|discriminate].
    assert (Ht : holds P (Loop.take globals n c)) by exact H.
    destruct msg; intros [= <-];
      solve [apply handle_holds; exact Ht | exact Ht].
  - intros [= <-]. apply handle_holds; exact H.
  - intros [= <-]. apply handle_holds; exact H.
Qed.

End LoopInvariant.

Lemma Second_divides_timeouts :
  (time.Second | time.Second * 20) /\ (time.Second | time.Minute * 5) /\
  (time.Second | time.Minute * 25).
Proof.
  repeat split; [exists 20 | exists 300 | exists 1500]; reflexivity.
Qed.

Lemma V1_progress_of_finite (now : time.Time) (g : V1.globals) :
  exists q, V1.progress_of now g = Fin q.
Proof.
  unfold V1.progress_of.
  change (time.Seconds V1.timeout) with (Fin (20 # 1)).
  unfold time.Seconds, math.fin. rewrite div_finite by reflexivity.
  eexists; reflexivity.
Qed.

Lemma V1_Update_inv (now : time.Time) (g : V1.globals) (m : model.t)
    (msg : Msg) (tgt : time.Duration) :
  inv1 m g tgt ->
  inv1 (fst (fst (V1.Update now g m msg))) (snd (V1.Update now g m msg))
       (if retargets (model.keymap m) msg
        then remaining (fst (fst (V1.Update now g m msg))) else tgt).
Proof.
  intros (Hc & Hk & Hb).
  destruct Second_divides_timeouts as (D20 & D5 & D25).
  destruct msg; unfold V1.Update, retargets; cbv beta iota;
    try (split; [exact Hc | split; [exact Hk | exact Hb]]).
  (* timer.TimeoutMsg, tickMsg and tea.QuitMsg leave all of it in place *)
  - (* timer.TickMsg *)
    pose proof (timer_Update_ok _ (TickMsg ID Timeout tag) _ Hc) as Hc'.
    destruct (timer.Update (model.timer m) _) as [t cmd]; simpl in *.
    split; [exact Hc' | split; [exact Hk |]].
    destruct (V1_progress_of_finite now g) as [q ->].
    apply clamp_in_unit; discriminate.
  - (* timer.StartStopMsg *)
    destruct (on_StartStop_frame m (StartStopMsg ID running0))
      as (Et & _ & Ep & _ & Hk' & _).
    destruct (on_StartStop m _) as [m' cmd]; simpl in *.
    unfold inv1. rewrite Et, Ep.
    split; [apply timer_Update_ok; exact Hc
           | split; [apply Hk'; exact Hk | exact Hb]].
  - (* tea.KeyMsg *)
    destruct (command (model.keymap m) k) as [[]|] eqn:E;
      unfold inv1, remaining; simpl;
      (split; [| split; [first [exact Hk | split; apply Hk] | exact Hb]]);
      first [ exact Hc
            | apply clock_ok_set;
              [apply Hc | assumption |
               unfold V1.timeout, V1.breakTime, time.Minute, time.Second;
               lia] ].
  - (* progress.FrameMsg *)
    destruct (on_Frame_frame m (FrameMsg id tag)) as (Et & Ek & _ & Ep).
    destruct (on_Frame m _) as [m' cmd]; simpl in *.
    unfold inv1. rewrite Et, Ek, Ep. tauto.
  - (* tea.WindowSizeMsg *)
    destruct (resize_frame m Width) as (Et & Ek & _ & Ep & _).
    unfold inv1. simpl. rewrite Et, Ek, Ep. tauto.
Qed.

Lemma V2_progress_of_value (g : V2.globals) (t : timer.Model) :
  V2.timeout g <> 0 ->
  exists q,
    V2.progress_of g t = Fin q /\
    (q == inject_Z (V2.timeout g - timer.Timeout t) / inject_Z (V2.timeout g))%Q.
Proof.
  intros Hz.
  destruct (Seconds_nonzero _ Hz) as (b & Eb & Zb & Vb).
  unfold V2.progress_of. rewrite Eb.
  unfold time.Seconds, math.sub, math.neg, math.add, math.fin.
  rewrite div_finite by exact Zb.
  eexists. split; [reflexivity|].
  unfold math.fin. rewrite !Qred_correct, Vb.
  rewrite (Qmake_Qdiv (V2.timeout g)), (Qmake_Qdiv (timer.Timeout t)).
  unfold Z.sub. rewrite inject_Z_plus, inject_Z_opp.
  field.
  intros H. apply Hz. unfold Qeq in H; simpl in H. lia.
Qed.

Lemma V2_Update_inv (now : time.Time) (g : V2.globals) (m : model.t)
    (msg : Msg) (tgt : time.Duration) :
  inv2 m g tgt ->
  inv2 (fst (fst (V2.Update now g m msg))) (snd (V2.Update now g m msg))
       (if retargets (model.keymap m) msg
        then remaining (fst (fst (V2.Update now g m msg))) else tgt).
Proof.
  intros (Hc & Hk & Hb & Hg).
  destruct Second_divides_timeouts as (D20 & D5 & D25).
  assert (R25 : 0 <= time.Minute * 25 <= time.Minute * 25)
    by (unfold time.Minute, time.Second; lia).
  assert (R5 : 0 <= time.Minute * 5 <= time.Minute * 25)
    by (unfold time.Minute, time.Second; lia).
  destruct msg; unfold V2.Update, retargets; cbv beta iota;
    try (split; [exact Hc | split; [exact Hk | split; [exact Hb | exact Hg]]]).
  (* timer.TimeoutMsg, tickMsg and tea.QuitMsg leave all of it in place *)
  - (* timer.TickMsg *)
    pose proof (timer_Update_ok _ (TickMsg ID Timeout tag) _ Hc) as Hc'.
    assert (Hz : V2.timeout g <> 0)
      by (rewrite Hg; unfold time.Minute, time.Second; lia).
    destruct (V2_progress_of_value g (model.timer m) Hz) as (q & Eq & _).
    simpl. rewrite Eq.
    destruct (timer.Update (model.timer m) _) as [t cmd]; simpl in *.
    split; [exact Hc' | split; [exact Hk | split; [| exact Hg]]].
    apply clamp_in_unit; discriminate.
  - (* timer.StartStopMsg *)
    destruct (on_StartStop_frame m (StartStopMsg ID running0))
      as (Et & _ & Ep & _ & Hk' & _).
    destruct (on_StartStop m _) as [m' cmd]; simpl in *.
    unfold inv2. rewrite Et, Ep.
    split; [apply timer_Update_ok; exact Hc
           | split; [apply Hk'; exact Hk | split; [exact Hb | exact Hg]]].
  - (* tea.KeyMsg *)
    destruct (command (model.keymap m) k) as [[]|] eqn:E;
      unfold inv2, remaining; simpl;
      (split; [| split; [first [exact Hk | split; apply Hk]
                        | split; [first [exact Hb
                                        | split; [apply Qle_refl | discriminate]]
                                 | first [exact Hg | reflexivity]]]]);
      first [ exact Hc
            | rewrite Hg; apply clock_ok_New; [exact D25 | exact R25]
            | apply clock_ok_New; [exact D5 | exact R5]
            | apply clock_ok_New; [exact D25 | exact R25] ].
  - (* progress.FrameMsg *)
    destruct (on_Frame_frame m (FrameMsg id tag)) as (Et & Ek & _ & Ep).
    destruct (on_Frame m _) as [m' cmd]; simpl in *.
    unfold inv2. rewrite Et, Ek, Ep. tauto.
  - (* tea.WindowSizeMsg *)
    destruct (resize_frame m Width) as (Et & Ek & _ & Ep & _).
    unfold inv2. simpl. rewrite Et, Ek, Ep. tauto.
Qed.

Lemma V1_reachable_inv (c : V1.Config) : V1.reachable c -> holds inv1 c.
Proof.
  induction 1 as [t0 | c c' e _ IH Hs].
  - unfold holds, inv1; simpl. split; [|split].
    + apply clock_ok_New;
        [exists 20; reflexivity | vm_compute; split; discriminate].
    + split; discriminate.
    + split; [apply Qle_refl | discriminate].
  - exact (step_holds _ _ _ V1_Update_inv c c' e IH Hs).
Qed.

Lemma V2_reachable_inv (c : V2.Config) : V2.reachable c -> holds inv2 c.
Proof.
  induction 1 as [t0 | c c' e _ IH Hs].
  - unfold holds, inv2; simpl. split; [|split; [|split]].
    + apply clock_ok_New;
        [exists 1500; reflexivity | vm_compute; split; discriminate].
    + split; discriminate.
    + split; [apply Qle_refl | discriminate].
    + reflexivity.
  - exact (step_holds _ _ _ V2_Update_inv c c' e IH Hs).
Qed.

Lemma V1_run_reachable (evs : list Event) (c c' : V1.Config) :
  V1.reachable c -> V1.run evs c = Some c' -> V1.reachable c'.
Proof.
  revert c. induction evs as [|e evs IH]; intros c Hc; simpl.
  - intros [= <-]. exact Hc.
  - unfold V1.run; simpl. destruct (Loop.step _ _ c e) as [c1|] eqn:E;
      [|discriminate].
    apply IH. exact (V1.reach_step c c1 e Hc E).
Qed.

Lemma V2_run_reachable (evs : list Event) (c c' : V2.Config) :
  V2.reachable c -> V2.run evs c = Some c' -> V2.reachable c'.
Proof.
  revert c. induction evs as [|e evs IH]; intros c Hc; simpl.
  - intros [= <-]. exact Hc.
  - unfold V2.run; simpl. destruct (Loop.step _ _ c e) as [c1|] eqn:E;
      [|discriminate].
    apply IH. exact (V2.reach_step c c1 e Hc E).
Qed.

(** ** The clock inside the session *)

(** Unless the message is a retargeting key, [Update] does to the timer
    exactly what the timer's own [Update] does. *)
Lemma V1_Update_timer (now : time.Time) (g : V1.globals) (m : model.t)
    (msg : Msg) :
  retargets (model.keymap m) msg = false ->
  model.timer (fst (fst (V1.Update now g m msg))) =
  fst (timer.Update (model.timer m) msg).
Proof.
  destruct msg; unfold V1.Update, retargets; cbv beta iota; intros H;
    try reflexivity.
  - destruct (timer.Update (model.timer m) _) as [t cmd]; reflexivity.
  - pose proof (on_StartStop_frame m (StartStopMsg ID running0)) as (E & _).
    destruct (on_StartStop m _) as [m' cmd]; exact E.
  - destruct (command (model.keymap m) k) as [[]|];
      try discriminate; reflexivity.
  - pose proof (on_Frame_frame m (FrameMsg id tag)) as (E & _).
    destruct (on_Frame m _) as [m' cmd]; exact E.
  - apply (resize_frame m Width).
Qed.

Lemma V2_Update_timer (now : time.Time) (g : V2.globals) (m : model.t)
    (msg : Msg) :
  retargets (model.keymap m) msg = false ->
  model.timer (fst (fst (V2.Update now g m msg))) =
  fst (timer.Update (model.timer m) msg).
Proof.
  destruct msg; unfold V2.Update, retargets; cbv beta iota; intros H;
    try reflexivity.
  - simpl. destruct (timer.Update (model.timer m) _) as [t cmd]; reflexivity.
  - pose proof (on_StartStop_frame m (StartStopMsg ID running0)) as (E & _).
    destruct (on_StartStop m _) as [m' cmd]; exact E.
  - destruct (command (model.keymap m) k) as [[]|];
      try discriminate; reflexivity.
  - pose proof (on_Frame_frame m (FrameMsg id tag)) as (E & _).
    destruct (on_Frame m _) as [m' cmd]; exact E.
  - apply (resize_frame m Width).
Qed.

Lemma timer_Update_timedout (t : timer.Model) (msg : Msg) :
  timer.Timedout t = true ->
  let t' := fst (timer.Update t msg) in
  timer.Timeout t' = timer.Timeout t /\
  timer.Running t' = false /\ timer.Timedout t' = true.
Proof.
  intros H. pose proof (Timedout_not_Running t H) as R.
  destruct (timer_Update_frame t msg) as (_ & _ & _ & [E | [R' _]]);
    [|congruence].
  cbv zeta. split; [exact E|].
  assert (T : timer.Timedout (fst (timer.Update t msg)) = true)
    by (unfold timer.Timedout in *; rewrite E; exact H).
  split; [apply Timedout_not_Running; exact T | exact T].
Qed.

Lemma handle_fields (G : Type)
    (Update : time.Time -> G -> model.t -> Msg -> model.t * Cmd * G)
    (c : Loop.Config G) (msg : Msg) :
  let r := Update (Loop.now c) (Loop.glob c) (Loop.cur c) msg in
  let c' := Loop.handle G Update c msg in
  Loop.cur c' = fst (fst r) /\
  Loop.glob c' = snd r /\
  Loop.pending c' = Loop.pending c ++ tea.sched (Loop.now c) (snd (fst r)) /\
  Loop.now c' = Loop.now c /\
  Loop.target c' = (if retargets (model.keymap (Loop.cur c)) msg
                    then remaining (fst (fst r)) else Loop.target c).
Proof.
  unfold Loop.handle. destruct (Update _ _ _ _) as [[m cmd] g].
  repeat split; reflexivity.
Qed.

Lemma handle_clock (G : Type)
    (Update : time.Time -> G -> model.t -> Msg -> model.t * Cmd * G)
    (c : Loop.Config G) (msg : Msg) :
  clock (Loop.handle G Update c msg) =
  let m := fst (fst (Update (Loop.now c) (Loop.glob c) (Loop.cur c) msg)) in
  (if retargets (model.keymap (Loop.cur c)) msg
   then remaining m else Loop.target c,
   remaining m, running m, timedOut m).
Proof.
  unfold clock, Loop.handle.
  destruct (Update _ _ _ _) as [[m cmd] g]. reflexivity.
Qed.

Lemma set_running_twice (t : timer.Model) (v : bool) :
  timer.set_running (timer.set_running t v) (timer.running t) = t.
Proof. destruct t; reflexivity. Qed.

Lemma timer_Update_idle (t : timer.Model) (msg : Msg) :
  timer.Running t = false ->
  (forall ID v, msg <> StartStopMsg ID v) ->
  fst (timer.Update t msg) = t.
Proof.
  intros R N. destruct msg; unfold timer.Update; try reflexivity.
  - rewrite R. reflexivity.
  - exfalso. exact (N ID running0 eq_refl).
Qed.

Lemma timer_Update_field (t : timer.Model) (msg : Msg) :
  timer.Running t = false ->
  timer.set_running (fst (timer.Update t msg)) (timer.running t) = t.
Proof.
  intros R. destruct msg; unfold timer.Update;
    try (destruct t; reflexivity).
  - rewrite R. destruct t; reflexivity.
  - destruct (timer.foreign ID t); [destruct t; reflexivity|].
    apply set_running_twice.
Qed.

Lemma timedout_frame (G : Type)
    (Update : time.Time -> G -> model.t -> Msg -> model.t * Cmd * G)
    (c : Loop.Config G) (msg : Msg) :
  (forall now g m,
      retargets (model.keymap m) msg = false ->
      model.timer (fst (fst (Update now g m msg))) =
      fst (timer.Update (model.timer m) msg)) ->
  timedOut (Loop.cur c) = true ->
  retargets (model.keymap (Loop.cur c)) msg = false ->
  let c' := Loop.handle G Update c msg in
  clock c' = clock c /\
  running (Loop.cur c') = false /\
  ((forall ID v, msg <> StartStopMsg ID v) ->
   model.timer (Loop.cur c') = model.timer (Loop.cur c)) /\
  timer.set_running (model.timer (Loop.cur c'))
    (timer.running (model.timer (Loop.cur c))) = model.timer (Loop.cur c).
Proof.
  intros HU T R. cbv zeta.
  pose proof (handle_clock _ Update c msg) as Hc.
  rewrite R in Hc. cbv zeta in Hc.
  destruct (handle_fields _ Update c msg) as (Ec & _).
  pose proof (HU (Loop.now c) (Loop.glob c) _ R) as Et.
  destruct (timer_Update_timedout _ msg T) as (E1 & E2 & E3).
  pose proof (Timedout_not_Running _ T) as R0.
  unfold remaining, running, timedOut in *.
  rewrite Et, E1, E2, E3 in Hc.
  split; [|split; [|split]].
  - rewrite Hc. unfold clock, remaining, running, timedOut.
    rewrite T, R0. reflexivity.
  - apply (f_equal (fun x => snd (fst x))) in Hc. exact Hc.
  - intros N. rewrite Ec, Et. apply timer_Update_idle; assumption.
  - rewrite Ec, Et. apply timer_Update_field. exact R0.
Qed.

(** C2, as the code has it.  A clock whose remaining time is 0 is timed
    out and reports not running, and it stays so until a retargeting key:
    in a timed-out state every message that does not retarget the clock
    leaves target, remaining time, reported running flag and timed-out flag
    as they are.  Every tick and every toggle key (every such message but a
    start/stop message) leaves the whole timer as it is.  A start/stop
    message changes one thing in the timer, the running flag it stores.
    Both drafts. *)
Theorem C2_timeout_terminal :
  (forall m : model.t,
      remaining m = 0 -> timedOut m = true /\ running m = false) /\
  (forall (c : V1.Config) (msg : Msg),
      timedOut (Loop.cur c) = true ->
      retargets (model.keymap (Loop.cur c)) msg = false ->
      let c' := Loop.handle _ V1.Update c msg in
      clock c' = clock c /\
      running (Loop.cur c') = false /\
      ((forall ID v, msg <> StartStopMsg ID v) ->
       model.timer (Loop.cur c') = model.timer (Loop.cur c)) /\
      timer.set_running (model.timer (Loop.cur c'))
        (timer.running (model.timer (Loop.cur c))) = model.timer (Loop.cur c)) /\
  (forall (c : V2.Config) (msg : Msg),
      timedOut (Loop.cur c) = true ->
      retargets (model.keymap (Loop.cur c)) msg = false ->
      let c' := Loop.handle _ V2.Update c msg in
      clock c' = clock c /\
      running (Loop.cur c') = false /\
      ((forall ID v, msg <> StartStopMsg ID v) ->
       model.timer (Loop.cur c') = model.timer (Loop.cur c)) /\
      timer.set_running (model.timer (Loop.cur c'))
        (timer.running (model.timer (Loop.cur c))) = model.timer (Loop.cur c)).
Proof.
  split; [|split].
  - intros m H. unfold timedOut, running, remaining in *.
    assert (T : timer.Timedout (model.timer m) = true)
      by (unfold timer.Timedout; rewrite H; reflexivity).
    split; [exact T | apply Timedout_not_Running; exact T].
  - intros c msg T R.
    apply (timedout_frame _ V1.Update c msg
             (fun now g m => V1_Update_timer now g m msg) T R).
  - intros c msg T R.
    apply (timedout_frame _ V2.Update c msg
             (fun now g m => V2_Update_timer now g m msg) T R).
Qed.

(** C8 (clock invariant).  In every state the loop of either draft can
    reach, the remaining time lies between 0 and the target, the clock is
    timed out exactly when the remaining time is 0, and a timed-out clock is
    not running; hence every step of the loop (a tick, a start/stop
    message, a toggle, a retargeting key, or anything else) leads from a
    reachable state to a state satisfying the invariant again. *)
Theorem C8_clock_invariant :
  (forall c : V1.Config,
      V1.reachable c -> clock_inv (Loop.cur c) (Loop.target c)) /\
  (forall c : V2.Config,
      V2.reachable c -> clock_inv (Loop.cur c) (Loop.target c)) /\
  (forall (c c' : V1.Config) (e : Event),
      V1.reachable c -> V1.step c e = Some c' ->
      clock_inv (Loop.cur c') (Loop.target c')) /\
  (forall (c c' : V2.Config) (e : Event),
      V2.reachable c -> V2.step c e = Some c' ->
      clock_inv (Loop.cur c') (Loop.target c')).
Proof.
  assert (H1 : forall c : V1.Config,
             V1.reachable c -> clock_inv (Loop.cur c) (Loop.target c)).
  { intros c Hc. apply clock_ok_inv. apply (V1_reachable_inv c Hc). }
  assert (H2 : forall c : V2.Config,
             V2.reachable c -> clock_inv (Loop.cur c) (Loop.target c)).
  { intros c Hc. apply clock_ok_inv. apply (V2_reachable_inv c Hc). }
  split; [exact H1 | split; [exact H2 | split]].
  - intros c c' e Hc Hs. apply (H1 c' (V1.reach_step c c' e Hc Hs)).
  - intros c c' e Hc Hs. apply (H2 c' (V2.reach_step c c' e Hc Hs)).
Qed.

(** The invariant at the first draft's timed-out state. *)
Lemma C8_witness :
  exists c : V1.Config,
    V1.run to_timeout (V1.boot 0) = Some c /\
    clock_inv (Loop.cur c) (Loop.target c).
Proof.
  eexists. split; [vm_compute; reflexivity|].
  apply (proj1 C8_clock_invariant).
  apply (V1_run_reachable to_timeout (V1.boot 0)); [apply V1.reach_boot|].
  vm_compute; reflexivity.
Defined.

(** A late tick arriving at the first draft's timed-out clock. *)
Lemma C2_witness :
  exists c : V1.Config,
    V1.run to_timeout (V1.boot 0) = Some c /\
    timedOut (Loop.cur c) = true /\
    clock (Loop.handle _ V1.Update c (TickMsg 1 true 0)) = clock c /\
    model.timer (Loop.cur (Loop.handle _ V1.Update c (TickMsg 1 true 0))) =
    model.timer (Loop.cur c).
Proof.
  eexists. split; [vm_compute; reflexivity|].
  split; [reflexivity|].
  match goal with
  | |- clock (Loop.handle _ _ ?c _) = _ /\ _ =>
      destruct (proj1 (proj2 C2_timeout_terminal) c (TickMsg 1 true 0)
                  eq_refl eq_refl) as (H1 & _ & H3 & _)
  end.
  split; [exact H1 | apply H3; discriminate].
Defined.

(** C2 as stated fails: a stop command that arrives after the timeout is
    not a no-op on the clock.  In the first draft the toggle key is pressed
    during the last second, while the clock still runs, so the message it
    sends says stop; the last tick and the timeout message are handled
    first.  Handling the stop message then clears the running flag the
    timer stores.  Nothing shows at once, but after the reset key the clock
    is stopped, where without the stop message it would be running. *)
Lemma C2_counterexample :
  exists c c' d d' : V1.Config,
    V1.run (second_ticks 19
            ++ [Wait time.Second; Press "s"; Deliver 38; Deliver 42])
           (V1.boot 0) = Some c /\
    timedOut (Loop.cur c) = true /\
    nth_error (Loop.pending c) 39
      = Some (time.Second * 20, StartStopMsg 1 false) /\
    V1.step c (Deliver 39) = Some c' /\
    clock c' = clock c /\
    model.timer (Loop.cur c') <> model.timer (Loop.cur c) /\
    V1.step c (Press "r") = Some d /\
    V1.step c' (Press "r") = Some d' /\
    running (Loop.cur d) = true /\
    running (Loop.cur d') = false.
Proof.
  do 4 eexists.
  split; [vm_compute; reflexivity|].
  split; [reflexivity|]. split; [reflexivity|].
  split; [vm_compute; reflexivity|].
  split; [reflexivity|]. split; [vm_compute; discriminate|].
  split; [vm_compute; reflexivity|]. split; [vm_compute; reflexivity|].
  split; reflexivity.
Qed.

(** C9 (resize frame).  Processing a window-size message changes nothing
    but the width of the progress bar (the reported width less the padding,
    capped at [maxWidth]): target, remaining time, running and timed-out
    flags, the key bindings with their enabled flags, [quitting], the
    package-level [percent] and the bar's percentages are the same before
    and after, and no command is issued; in both drafts. *)
Theorem C9_resize_frame (w h : Z) :
  (forall c : V1.Config,
      only_width w c (Loop.handle _ V1.Update c (WindowSizeMsg w h))) /\
  (forall c : V2.Config,
      only_width w c (Loop.handle _ V2.Update c (WindowSizeMsg w h))).
Proof.
  split; intros c; unfold only_width, clock, Loop.handle; simpl;
    destruct (resize_frame (Loop.cur c) w)
      as (Et & Ek & Eq & Ep & Es & _ & _ & _ & _ & Ew);
    unfold remaining, running, timedOut;
    rewrite Et, Ek, Eq, Ep, Es, Ew, app_nil_r; repeat split; reflexivity.
Qed.

(** ** The quitting flag *)

Lemma set_quitting_same (m : model.t) :
  model.set_quitting m (model.quitting m) = m.
Proof. destruct m; reflexivity. Qed.

Lemma V1_Update_quitting (now : time.Time) (g : V1.globals) (m : model.t)
    (msg : Msg) :
  model.quitting m = true ->
  model.quitting (fst (fst (V1.Update now g m msg))) = true.
Proof.
  intros Q.
  destruct msg; unfold V1.Update; cbv beta iota; try exact Q.
  - destruct (timer.Update (model.timer m) _) as [t cmd]; exact Q.
  - pose proof (on_StartStop_frame m (StartStopMsg ID running0))
      as (_ & E & _).
    destruct (on_StartStop m _) as [m' cmd]. simpl in *. congruence.
  - reflexivity.
  - destruct (command (model.keymap m) k) as [[]|]; simpl; auto.
  - pose proof (on_Frame_frame m (FrameMsg id tag)) as (_ & _ & E & _).
    destruct (on_Frame m _) as [m' cmd]. simpl in *. congruence.
  - destruct (resize_frame m Width) as (_ & _ & E & _).
    simpl. congruence.
Qed.

Lemma V2_Update_quitting (now : time.Time) (g : V2.globals) (m : model.t)
    (msg : Msg) :
  model.quitting m = true ->
  model.quitting (fst (fst (V2.Update now g m msg))) = true.
Proof.
  intros Q.
  destruct msg; unfold V2.Update; cbv beta iota; try exact Q.
  - simpl. destruct (timer.Update (model.timer m) _) as [t cmd]; exact Q.
  - pose proof (on_StartStop_frame m (StartStopMsg ID running0))
      as (_ & E & _).
    destruct (on_StartStop m _) as [m' cmd]. simpl in *. congruence.
  - reflexivity.
  - destruct (command (model.keymap m) k) as [[]|]; simpl; auto.
  - pose proof (on_Frame_frame m (FrameMsg id tag)) as (_ & _ & E & _).
    destruct (on_Frame m _) as [m' cmd]. simpl in *. congruence.
  - destruct (resize_frame m Width) as (_ & _ & E & _).
    simpl. congruence.
Qed.

(** C10, as the code has it.  Processing the timeout message sets
    [quitting] (the flag the quit key sets too), and once set the flag stays
    set whatever message follows.  Unlike the quit key, which returns
    [tea.Quit], the timeout case returns no command and leaves the timer as
    it is: nothing ends the loop.  Both drafts. *)
Theorem C10_timeout_sets_quitting
    (now : time.Time) (g1 : V1.globals) (g2 : V2.globals) (m : model.t) :
  (forall id,
      V1.Update now g1 m (TimeoutMsg id) =
        (fst (on_Timeout m (TimeoutMsg id)), Nil, g1) /\
      V2.Update now g2 m (TimeoutMsg id) =
        (fst (on_Timeout m (TimeoutMsg id)), Nil, g2) /\
      model.quitting (fst (on_Timeout m (TimeoutMsg id))) = true /\
      model.timer (fst (on_Timeout m (TimeoutMsg id))) = model.timer m) /\
  (forall k,
      command (model.keymap m) k = Some KQuit ->
      V1.Update now g1 m (KeyMsg k) = (model.set_quitting m true, tea.Quit, g1) /\
      V2.Update now g2 m (KeyMsg k) = (model.set_quitting m true, tea.Quit, g2)) /\
  (forall msg,
      model.quitting m = true ->
      model.quitting (fst (fst (V1.Update now g1 m msg))) = true /\
      model.quitting (fst (fst (V2.Update now g2 m msg))) = true).
Proof.
  split; [|split].
  - intros id. repeat split; reflexivity.
  - intros k E. unfold V1.Update, V2.Update. rewrite E. split; reflexivity.
  - intros msg Q. split;
      [apply V1_Update_quitting | apply V2_Update_quitting]; exact Q.
Qed.

(** The timeout case at the model [main] builds, and the quit key there. *)
Lemma C10_witness :
  model.quitting
    (fst (fst (V1.Update 0 {| V1.percent := Fin 0; V1.start := 0 |}
                 V1.main (TimeoutMsg 1)))) = true /\
  V1.Update 0 {| V1.percent := Fin 0; V1.start := 0 |} V1.main (KeyMsg "q") =
    (model.set_quitting V1.main true, tea.Quit,
     {| V1.percent := Fin 0; V1.start := 0 |}) /\
  model.quitting
    (fst (fst (V2.Update 0
                 {| V2.timeout := time.Minute * 25; V2.percent := Fin 0;
                    V2.timer_lastID := 1 |}
                 (model.set_quitting V2.main true) (KeyMsg "p")))) = true.
Proof.
  split; [|split].
  - exact (proj1 (proj2 (proj2
      (proj1 (C10_timeout_sets_quitting 0
                {| V1.percent := Fin 0; V1.start := 0 |}
                {| V2.timeout := time.Minute * 25; V2.percent := Fin 0;
                   V2.timer_lastID := 1 |} V1.main) 1)))).
  - apply (proj1 (proj2 (C10_timeout_sets_quitting 0
                {| V1.percent := Fin 0; V1.start := 0 |}
                {| V2.timeout := time.Minute * 25; V2.percent := Fin 0;
                   V2.timer_lastID := 1 |} V1.main)) "q"%string).
    reflexivity.
  - apply (proj2 (proj2 (C10_timeout_sets_quitting 0
                {| V1.percent := Fin 0; V1.start := 0 |}
                {| V2.timeout := time.Minute * 25; V2.percent := Fin 0;
                   V2.timer_lastID := 1 |}
                (model.set_quitting V2.main true))) (KeyMsg "p")).
    reflexivity.
Defined.

(** C10 as stated fails: after the first draft has timed out the session
    is not over.  [quitting] is set, but the loop has not halted and no
    [tea.QuitMsg] is on its way; the work key sets the clock to 20 s again
    and a second later it shows 19 s, running. *)
Lemma C10_counterexample :
  exists c c' : V1.Config,
    V1.run to_timeout (V1.boot 0) = Some c /\
    model.quitting (Loop.cur c) = true /\
    timedOut (Loop.cur c) = true /\
    Loop.halted c = false /\
    existsb (fun p => match snd p with QuitMsg => true | _ => false end)
            (Loop.pending c) = false /\
    V1.run [Press "w"; Deliver 42; Wait time.Second; Deliver 42] c = Some c' /\
    remaining (Loop.cur c') = time.Second * 19 /\
    running (Loop.cur c') = true.
Proof.
  eexists. eexists.
  split; [vm_compute; reflexivity|].
  split; [reflexivity|]. split; [reflexivity|]. split; [reflexivity|].
  split; [reflexivity|].
  split; [vm_compute; reflexivity|].
  split; reflexivity.
Qed.

(** ** Commands while quitting *)

Lemma V1_Update_ignores_quitting (now : time.Time) (g : V1.globals)
    (m : model.t) (b : bool) (msg : Msg) :
  let r := V1.Update now g m msg in
  let r' := V1.Update now g (model.set_quitting m b) msg in
  model.timer (fst (fst r')) = model.timer (fst (fst r)) /\
  model.keymap (fst (fst r')) = model.keymap (fst (fst r)) /\
  model.progress (fst (fst r')) = model.progress (fst (fst r)) /\
  snd (fst r') = snd (fst r) /\ snd r' = snd r.
Proof.
  destruct m as [t km q p]. cbv zeta.
  destruct msg; unfold V1.Update, on_StartStop, on_Timeout, on_Frame;
    cbn [model.timer model.keymap model.progress model.set_quitting];
    try (repeat split; reflexivity).
  - destruct (timer.Update t _) as [t' cmd]; repeat split; reflexivity.
  - destruct (timer.Update t _) as [t' cmd]; repeat split; reflexivity.
  - destruct (command km k) as [[]|]; repeat split; reflexivity.
  - destruct (progress.Update p _) as [p' cmd]; repeat split; reflexivity.
  - unfold resize; simpl.
    destruct (maxWidth <? _); repeat split; reflexivity.
Qed.

Lemma V2_Update_ignores_quitting (now : time.Time) (g : V2.globals)
    (m : model.t) (b : bool) (msg : Msg) :
  let r := V2.Update now g m msg in
  let r' := V2.Update now g (model.set_quitting m b) msg in
  model.timer (fst (fst r')) = model.timer (fst (fst r)) /\
  model.keymap (fst (fst r')) = model.keymap (fst (fst r)) /\
  model.progress (fst (fst r')) = model.progress (fst (fst r)) /\
  snd (fst r') = snd (fst r) /\ snd r' = snd r.
Proof.
  destruct m as [t km q p]. cbv zeta.
  destruct msg; unfold V2.Update, on_StartStop, on_Timeout, on_Frame;
    cbn [model.timer model.keymap model.progress model.set_quitting];
    try (repeat split; reflexivity).
  - simpl. destruct (timer.Update t _) as [t' cmd]; repeat split; reflexivity.
  - destruct (timer.Update t _) as [t' cmd]; repeat split; reflexivity.
  - destruct (command km k) as [[]|]; repeat split; reflexivity.
  - destruct (progress.Update p _) as [p' cmd]; repeat split; reflexivity.
  - unfold resize; simpl.
    destruct (maxWidth <? _); repeat split; reflexivity.
Qed.

(** C5, as the code has it.  The quit key sets [quitting], returns
    [tea.Quit] and touches nothing else, so a second quit key leaves the
    state as it is.  But [Update] never reads [quitting]: what a message
    does to the timer, the key bindings, the progress bar and the
    package-level variables, and the command it returns, are the same
    whether the flag is set or not.  Both drafts. *)
Theorem C5_quit_sets_flag_only
    (now : time.Time) (g1 : V1.globals) (g2 : V2.globals) (m : model.t) :
  (forall k,
      command (model.keymap m) k = Some KQuit ->
      V1.Update now g1 m (KeyMsg k) = (model.set_quitting m true, tea.Quit, g1) /\
      V2.Update now g2 m (KeyMsg k) = (model.set_quitting m true, tea.Quit, g2) /\
      (model.quitting m = true -> model.set_quitting m true = m)) /\
  (forall b msg,
      let r := V1.Update now g1 m msg in
      let r' := V1.Update now g1 (model.set_quitting m b) msg in
      model.timer (fst (fst r')) = model.timer (fst (fst r)) /\
      model.keymap (fst (fst r')) = model.keymap (fst (fst r)) /\
      model.progress (fst (fst r')) = model.progress (fst (fst r)) /\
      snd (fst r') = snd (fst r) /\ snd r' = snd r) /\
  (forall b msg,
      let r := V2.Update now g2 m msg in
      let r' := V2.Update now g2 (model.set_quitting m b) msg in
      model.timer (fst (fst r')) = model.timer (fst (fst r)) /\
      model.keymap (fst (fst r')) = model.keymap (fst (fst r)) /\
      model.progress (fst (fst r')) = model.progress (fst (fst r)) /\
      snd (fst r') = snd (fst r) /\ snd r' = snd r).
Proof.
  split; [|split].
  - intros k E. unfold V1.Update, V2.Update. rewrite E.
    split; [reflexivity | split; [reflexivity |]].
    intros Q. rewrite <- Q. apply set_quitting_same.
  - intros b msg. apply V1_Update_ignores_quitting.
  - intros b msg. apply V2_Update_ignores_quitting.
Qed.

(** The quit key pressed twice at the model [main] builds. *)
Lemma C5_witness :
  V1.Update 0 {| V1.percent := Fin 0; V1.start := 0 |}
    (model.set_quitting V1.main true) (KeyMsg "q") =
  (model.set_quitting V1.main true, tea.Quit,
   {| V1.percent := Fin 0; V1.start := 0 |}).
Proof.
  pose proof (proj1 (C5_quit_sets_flag_only 0
                {| V1.percent := Fin 0; V1.start := 0 |}
                {| V2.timeout := time.Minute * 25; V2.percent := Fin 0;
                   V2.timer_lastID := 1 |}
                (model.set_quitting V1.main true)) "q"%string eq_refl)
    as (H & _ & _).
  exact H.
Defined.

(** C5 as stated fails: commands are not ignored while [quitting] is set.
    In the first draft's timed-out state [quitting] is true, and the break
    key pressed there sets the remaining time from 0 to five minutes. *)
Lemma C5_counterexample :
  exists c c' : V1.Config,
    V1.run to_timeout (V1.boot 0) = Some c /\
    model.quitting (Loop.cur c) = true /\
    remaining (Loop.cur c) = 0 /\
    V1.step c (Press "p") = Some c' /\
    remaining (Loop.cur c') = time.Minute * 5 /\
    clock c' <> clock c.
Proof.
  eexists. eexists.
  split; [vm_compute; reflexivity|].
  split; [reflexivity|]. split; [reflexivity|].
  split; [vm_compute; reflexivity|].
  split; [reflexivity|].
  vm_compute. discriminate.
Qed.

(** ** Start and Stop controls *)

Lemma refresh_flags (m : model.t) (msg : Msg) :
  keys_ok (model.keymap m) -> refreshes msg = true ->
  let m1 := fst (fst (V1.Update 0 {| V1.percent := Fin 0; V1.start := 0 |} m msg)) in
  (forall now g, fst (fst (V1.Update now g m msg)) = m1) /\
  (forall now g, fst (fst (V2.Update now g m msg)) = m1) /\
  stopEnabled m1 = running m1 /\ startEnabled m1 = negb (running m1).
Proof.
  intros Hk Hr. destruct msg; try discriminate; unfold V1.Update, V2.Update;
    cbv beta iota zeta.
  - pose proof (on_StartStop_frame m (StartStopMsg ID running0))
      as (_ & _ & _ & _ & H & _).
    destruct (on_StartStop m _) as [m' cmd]. simpl in *.
    repeat split; try reflexivity; apply H; exact Hk.
  - pose proof (on_Timeout_frame m (TimeoutMsg ID)) as (_ & _ & _ & _ & H).
    destruct (on_Timeout m _) as [m' cmd]. simpl in *.
    repeat split; try reflexivity; apply H; exact Hk.
Qed.

(** C4, as the code has it.  Right after a start/stop message or a timeout
    message has been processed, exactly one of Start and Stop is enabled:
    Stop if the clock is running, Start if it is not.  (The flags are only
    recomputed there; in between they can lag behind the clock.)  Both
    drafts, from any state the loop can reach. *)
Theorem C4_flags_after_startstop (msg : Msg) :
  refreshes msg = true ->
  (forall c : V1.Config,
      V1.reachable c ->
      let m' := Loop.cur (Loop.handle _ V1.Update c msg) in
      stopEnabled m' = running m' /\ startEnabled m' = negb (running m') /\
      xorb (startEnabled m') (stopEnabled m') = true) /\
  (forall c : V2.Config,
      V2.reachable c ->
      let m' := Loop.cur (Loop.handle _ V2.Update c msg) in
      stopEnabled m' = running m' /\ startEnabled m' = negb (running m') /\
      xorb (startEnabled m') (stopEnabled m') = true).
Proof.
  intros Hr. split; intros c Hc; cbv zeta.
  - destruct (V1_reachable_inv c Hc) as (_ & Hk & _).
    destruct (handle_fields _ V1.Update c msg) as (E & _). rewrite E.
    destruct (refresh_flags _ msg Hk Hr) as (E1 & _ & Hs & Hp).
    rewrite (E1 (Loop.now c) (Loop.glob c)), Hs, Hp.
    repeat split. destruct (running _); reflexivity.
  - destruct (V2_reachable_inv c Hc) as (_ & Hk & _).
    destruct (handle_fields _ V2.Update c msg) as (E & _). rewrite E.
    destruct (refresh_flags _ msg Hk Hr) as (_ & E2 & Hs & Hp).
    rewrite (E2 (Loop.now c) (Loop.glob c)), Hs, Hp.
    repeat split. destruct (running _); reflexivity.
Qed.

(** The stop message that the second draft's [Init] sends, arriving at the
    freshly started program. *)
Lemma C4_witness :
  let m' := Loop.cur (Loop.handle _ V2.Update (V2.boot 0) (StartStopMsg 1 false)) in
  running m' = false /\ stopEnabled m' = false /\ startEnabled m' = true.
Proof.
  destruct (proj2 (C4_flags_after_startstop (StartStopMsg 1 false) eq_refl)
              (V2.boot 0) (V2.reach_boot 0)) as (Hs & Hp & _).
  cbv zeta. rewrite Hs, Hp. split; [reflexivity | split; reflexivity].
Defined.

(** C4 as stated fails.  First draft: stop the clock (the toggle key and
    its start/stop message), then press reset: Start and Stop are both
    disabled.  Second draft: in the state the program starts in, the clock
    is running while Stop is disabled and Start enabled. *)
Lemma C4_counterexample :
  (exists c : V1.Config,
      V1.run [Press "s"; Deliver 2; Press "r"] (V1.boot 0) = Some c /\
      V1.reachable c /\
      startEnabled (Loop.cur c) = false /\ stopEnabled (Loop.cur c) = false) /\
  (V2.reachable (V2.boot 0) /\
   running (Loop.cur (V2.boot 0)) = true /\
   stopEnabled (Loop.cur (V2.boot 0)) = false /\
   startEnabled (Loop.cur (V2.boot 0)) = true).
Proof.
  split.
  - eexists. split; [vm_compute; reflexivity|].
    split; [|split; reflexivity].
    apply (V1_run_reachable [Press "s"; Deliver 2; Press "r"] (V1.boot 0));
      [apply V1.reach_boot | vm_compute; reflexivity].
  - split; [apply V2.reach_boot|]. repeat split; reflexivity.
Qed.

(** ** Retargeting keys *)

Lemma own_StartStop (t : timer.Model) (v : bool) :
  timer.Update t (StartStopMsg (timer.id t) v) =
  (timer.set_running t v, timer.tick (timer.set_running t v)).
Proof.
  unfold timer.Update, timer.foreign. rewrite Z.eqb_refl, andb_false_r.
  reflexivity.
Qed.

Lemma Running_set_running (t : timer.Model) (v : bool) :
  0 < timer.Timeout t -> timer.Running (timer.set_running t v) = v.
Proof.
  intros H. unfold timer.Running, timer.Timedout; simpl.
  apply Z.leb_gt in H. rewrite H. destruct v; reflexivity.
Qed.

(** A start/stop message addressed to the session's own timer. *)
Lemma own_StartStop_session (m : model.t) (v : bool) :
  keys_ok (model.keymap m) -> 0 < remaining m ->
  let m' := fst (on_StartStop m (StartStopMsg (timer.id (model.timer m)) v)) in
  running m' = v /\ remaining m' = remaining m /\
  stopEnabled m' = v /\ startEnabled m' = negb v.
Proof.
  intros Hk Hr.
  destruct (on_StartStop_frame m (StartStopMsg (timer.id (model.timer m)) v))
    as (Et & _ & _ & _ & Hf & _).
  destruct (Hf Hk) as (_ & Hs & Hp). cbv zeta in *.
  rewrite own_StartStop in Et. simpl in Et.
  assert (R : running
                (fst (on_StartStop m
                        (StartStopMsg (timer.id (model.timer m)) v))) = v).
  { unfold running. rewrite Et. apply Running_set_running. exact Hr. }
  rewrite Hs, Hp, R. unfold remaining. rewrite Et.
  repeat split; reflexivity.
Qed.

(** C3 at its failing input.  In the first draft the reset key is pressed
    while the clock runs.  The handler is headed "Stop and reinitialize the
    Timer" and builds the stop command, but drops it: no message is queued,
    the clock goes on running (a second later 19 s remain) and Start is
    disabled.  The second draft's handler, on a running clock as well,
    returns the stop command and enables Start: once the stop message is
    handled the clock is stopped at 25 min with the bar's target at 0,
    Start enabled and Stop disabled. *)
Theorem C3_reset_keeps_running :
  (exists c c' : V1.Config,
      V1.step (V1.boot 0) (Press "r") = Some c /\
      remaining (Loop.cur c) = time.Second * 20 /\
      V1.percent (Loop.glob c) = Fin 0 /\
      Loop.pending c = Loop.pending (V1.boot 0) /\
      running (Loop.cur c) = true /\
      startEnabled (Loop.cur c) = false /\
      V1.run [Wait time.Second; Deliver 0] c = Some c' /\
      running (Loop.cur c') = true /\
      remaining (Loop.cur c') = time.Second * 19) /\
  (exists c c' : V2.Config,
      V2.run [Deliver 1; Press "s"; Deliver 2; Press "r"] (V2.boot 0)
        = Some c /\
      nth_error (Loop.pending c) 4 = Some (0, StartStopMsg 2 false) /\
      startEnabled (Loop.cur c) = true /\
      V2.step c (Deliver 4) = Some c' /\
      running (Loop.cur c') = false /\
      remaining (Loop.cur c') = time.Minute * 25 /\
      progress.targetPercent (model.progress (Loop.cur c')) = Fin 0 /\
      startEnabled (Loop.cur c') = true /\
      stopEnabled (Loop.cur c') = false).
Proof.
  split.
  - do 2 eexists. split; [vm_compute; reflexivity|].
    split; [reflexivity|]. split; [reflexivity|]. split; [reflexivity|].
    split; [reflexivity|]. split; [reflexivity|].
    split; [vm_compute; reflexivity|]. split; reflexivity.
  - do 2 eexists. split; [vm_compute; reflexivity|].
    split; [reflexivity|]. split; [reflexivity|].
    split; [vm_compute; reflexivity|].
    repeat split; reflexivity.
Qed.

(** C6, as the code has it.  The break key sets the remaining time (and so
    the target) to five minutes and sends the clock a start message.  In
    the second draft the clock is a fresh timer that counts as running at
    once, and the bar's target is reset to 0.  In the first draft the clock
    runs once the start message has been processed (Stop is then enabled
    and Start disabled). *)
Theorem C6_break (k : string) :
  (forall c : V1.Config,
      V1.reachable c ->
      command (model.keymap (Loop.cur c)) k = Some KPause ->
      let c' := Loop.handle _ V1.Update c (KeyMsg k) in
      let startMsg :=
        StartStopMsg (timer.id (model.timer (Loop.cur c'))) true in
      let c'' := Loop.handle _ V1.Update c' startMsg in
      remaining (Loop.cur c') = time.Minute * 5 /\
      Loop.target c' = time.Minute * 5 /\
      In (Loop.now c, startMsg) (Loop.pending c') /\
      running (Loop.cur c'') = true /\
      remaining (Loop.cur c'') = time.Minute * 5 /\
      stopEnabled (Loop.cur c'') = true /\
      startEnabled (Loop.cur c'') = false) /\
  (forall c : V2.Config,
      command (model.keymap (Loop.cur c)) k = Some KPause ->
      let c' := Loop.handle _ V2.Update c (KeyMsg k) in
      remaining (Loop.cur c') = time.Minute * 5 /\
      Loop.target c' = time.Minute * 5 /\
      running (Loop.cur c') = true /\
      progress.targetPercent (model.progress (Loop.cur c')) = Fin 0 /\
      In (Loop.now c,
          StartStopMsg (timer.id (model.timer (Loop.cur c'))) true)
         (Loop.pending c')).
Proof.
  split.
  - intros c Hc E.
    destruct (V1_reachable_inv c Hc) as (_ & Hk & _).
    cbv zeta.
    set (c' := Loop.handle _ V1.Update c (KeyMsg k)).
    assert (Ec' : Loop.cur c' =
                  model.set_timer (Loop.cur c)
                    (timer.set_Timeout (model.timer (Loop.cur c))
                       (time.Minute * 5))).
    { unfold c', Loop.handle, V1.Update. rewrite E. reflexivity. }
    assert (Ep' : In (Loop.now c,
                      StartStopMsg (timer.id (model.timer (Loop.cur c'))) true)
                     (Loop.pending c')).
    { unfold c', Loop.handle, V1.Update. rewrite E. simpl.
      apply in_or_app. right. simpl. auto. }
    assert (Et' : Loop.target c' = time.Minute * 5).
    { unfold c', Loop.handle, V1.Update, retargets. rewrite E. reflexivity. }
    assert (Hk' : keys_ok (model.keymap (Loop.cur c')))
      by (rewrite Ec'; exact Hk).
    assert (Hr' : remaining (Loop.cur c') = time.Minute * 5)
      by (rewrite Ec'; reflexivity).
    assert (Hpos : 0 < remaining (Loop.cur c'))
      by (rewrite Hr'; reflexivity).
    destruct (own_StartStop_session (Loop.cur c') true Hk' Hpos)
      as (R & Rm & Hs & Hp).
    destruct (handle_fields _ V1.Update c'
                (StartStopMsg (timer.id (model.timer (Loop.cur c'))) true))
      as (Ec'' & _).
    assert (Ecur : Loop.cur
                     (Loop.handle _ V1.Update c'
                        (StartStopMsg (timer.id (model.timer (Loop.cur c')))
                           true)) =
                   fst (on_StartStop (Loop.cur c')
                          (StartStopMsg (timer.id (model.timer (Loop.cur c')))
                             true))).
    { rewrite Ec''. unfold V1.Update. destruct (on_StartStop _ _); reflexivity. }
    rewrite Ecur, R, Rm, Hs, Hp, Hr', Et'.
    repeat split; try reflexivity; exact Ep'.
  - intros c E. cbv zeta. unfold Loop.handle, V2.Update, retargets.
    rewrite E. simpl. repeat split; try reflexivity.
    apply in_or_app. right. simpl. auto.
Qed.

(** The break key at the start-up state of either draft. *)
Lemma C6_witness :
  running
    (Loop.cur (Loop.handle _ V2.Update (V2.boot 0) (KeyMsg "p"))) = true /\
  remaining
    (Loop.cur (Loop.handle _ V1.Update (V1.boot 0) (KeyMsg "p")))
  = time.Minute * 5.
Proof.
  split.
  - apply (proj2 (C6_break "p") (V2.boot 0) eq_refl).
  - apply (proj1 (C6_break "p") (V1.boot 0) (V1.reach_boot 0) eq_refl).
Defined.

(** C6 as stated fails in the first draft: one second in, stop the clock
    and press the break key.  The clock is set to five minutes but is not
    running, and the progress stays at the 1/20 the last tick computed. *)
Lemma C6_counterexample :
  exists c : V1.Config,
    V1.run [Wait time.Second; Deliver 0; Press "s"; Deliver 4; Press "p"]
           (V1.boot 0) = Some c /\
    remaining (Loop.cur c) = time.Minute * 5 /\
    running (Loop.cur c) = false /\
    V1.percent (Loop.glob c) = Fin (1 # 20) /\
    progress.targetPercent (model.progress (Loop.cur c)) = Fin (1 # 20).
Proof.
  eexists. split; [vm_compute; reflexivity|].
  repeat split; reflexivity.
Qed.

(** ** Progress *)

Lemma same_float_Fin (x : float64) (q q' : Q) :
  same_float x (Fin q) -> (q == q')%Q -> same_float x (Fin q').
Proof.
  destruct x; simpl; intros H E; try contradiction.
  rewrite H. exact E.
Qed.

Lemma ratio_unit (T R : Z) :
  0 < T -> 0 <= R <= T -> (0 <= inject_Z (T - R) / inject_Z T <= 1)%Q.
Proof.
  intros HT HR. destruct T as [|p|p]; try lia.
  rewrite <- (Qmake_Qdiv (Z.pos p - R) p).
  unfold Qle; cbn [Qnum Qden]. split; lia.
Qed.

Lemma Spec_percent_ratio (T R : Z) :
  0 < T -> 0 <= R <= T ->
  (Spec.percent T R == inject_Z (T - R) / inject_Z T)%Q.
Proof.
  intros HT HR. destruct (ratio_unit T R HT HR) as [H0 H1].
  unfold Spec.percent.
  rewrite (Q.min_r _ _ H1). apply Q.max_r. exact H0.
Qed.

Lemma clamp_unit (q : Q) :
  (0 <= q <= 1)%Q ->
  same_float (math.Max (Fin 0) (math.Min (Fin 1) (Fin q))) (Fin q).
Proof.
  intros [H0 H1]. unfold math.Min.
  destruct (Qle_bool 1 q) eqn:E1; unfold math.Max.
  - apply Qle_bool_iff in E1. simpl. apply Qle_antisym; assumption.
  - apply Qle_bool_iff in H0. rewrite H0. simpl. reflexivity.
Qed.

Lemma V2_progress_of_fresh (g : V2.globals) (t : timer.Model) :
  V2.timeout g <> 0 -> timer.Timeout t = V2.timeout g ->
  V2.progress_of g t = Fin 0.
Proof.
  intros Hz Ht.
  destruct (Seconds_nonzero _ Hz) as (b & Eb & Zb & _).
  unfold V2.progress_of. rewrite Ht, Eb.
  assert (S0 : math.sub (Fin b) (Fin b) = Fin 0).
  { unfold math.sub, math.neg, math.add, math.fin.
    change (Fin 0) with (Fin (Qred 0)). f_equal.
    apply Qred_complete. rewrite Qred_correct. apply Qplus_opp_r. }
  rewrite S0, div_finite by exact Zb.
  reflexivity.
Qed.

Lemma V1_Update_tick (now : time.Time) (g : V1.globals) (m : model.t)
    (ID : Z) (flag : bool) (tag : Z) :
  let r := V1.Update now g m (TickMsg ID flag tag) in
  V1.percent (snd r) = V1.progress_of now g /\
  progress.targetPercent (model.progress (fst (fst r))) =
    math.Max (Fin 0) (math.Min (Fin 1) (V1.progress_of now g)).
Proof.
  cbv zeta. unfold V1.Update.
  destruct (timer.Update _ _) as [t cmd]. split; reflexivity.
Qed.

Lemma V2_Update_tick (now : time.Time) (g : V2.globals) (m : model.t)
    (ID : Z) (flag : bool) (tag : Z) :
  let r := V2.Update now g m (TickMsg ID flag tag) in
  V2.percent (snd r) = V2.progress_of g (model.timer m) /\
  progress.targetPercent (model.progress (fst (fst r))) =
    math.Max (Fin 0) (math.Min (Fin 1) (V2.progress_of g (model.timer m))).
Proof.
  cbv zeta. unfold V2.Update.
  cbn [progress.SetPercent model.set_progress model.timer V2.percent].
  destruct (timer.Update _ _) as [t cmd]. split; reflexivity.
Qed.

(** C1, as the code has it.  On every timer tick the program recomputes
    [percent] and hands it to the progress bar, which keeps it clamped to
    [0, 1].  In the first draft the value is the wall-clock time elapsed
    since [start] (program start or last reset) over the work timeout.  In
    the second draft it is computed from the clock alone: the work
    duration less the remaining time the tick finds, over the work
    duration; so whenever the clock's target is the work duration this is
    [(target - remaining) / target] of the specification, already within
    [0, 1]. *)
Theorem C1_progress_on_tick (ID : Z) (flag : bool) (tag : Z) :
  (forall c : V1.Config,
      let c' := Loop.handle _ V1.Update c (TickMsg ID flag tag) in
      V1.percent (Loop.glob c') =
        math.div
          (time.Seconds (time.Since (Loop.now c) (V1.start (Loop.glob c))))
          (time.Seconds V1.timeout) /\
      progress.targetPercent (model.progress (Loop.cur c')) =
        math.Max (Fin 0) (math.Min (Fin 1) (V1.percent (Loop.glob c')))) /\
  (forall c : V2.Config,
      V2.reachable c ->
      let c' := Loop.handle _ V2.Update c (TickMsg ID flag tag) in
      exists q : Q,
        V2.percent (Loop.glob c') = Fin q /\
        (q == inject_Z (time.Minute * 25 - remaining (Loop.cur c))
              / inject_Z (time.Minute * 25))%Q /\
        progress.targetPercent (model.progress (Loop.cur c')) =
          math.Max (Fin 0) (math.Min (Fin 1) (Fin q)) /\
        (Loop.target c = time.Minute * 25 ->
         (q == Spec.percent (Loop.target c) (remaining (Loop.cur c)))%Q /\
         same_float (progress.targetPercent (model.progress (Loop.cur c')))
                    (Fin (Spec.percent (Loop.target c)
                                       (remaining (Loop.cur c)))))).
Proof.
  split.
  - intros c. cbv zeta.
    destruct (handle_fields _ V1.Update c (TickMsg ID flag tag))
      as (Ec & Eg & _).
    destruct (V1_Update_tick (Loop.now c) (Loop.glob c) (Loop.cur c)
                ID flag tag) as (Ep & Eb).
    rewrite Ec, Eg, Ep, Eb. split; reflexivity.
  - intros c Hc. cbv zeta.
    destruct (V2_reachable_inv c Hc) as ((_ & _ & Hr & _) & _ & _ & Hg).
    assert (Hz : V2.timeout (Loop.glob c) <> 0) by (rewrite Hg; discriminate).
    destruct (V2_progress_of_value (Loop.glob c) (model.timer (Loop.cur c)) Hz)
      as (q & Eq & Vq).
    rewrite Hg in Vq.
    destruct (handle_fields _ V2.Update c (TickMsg ID flag tag))
      as (Ec & Eg & _).
    destruct (V2_Update_tick (Loop.now c) (Loop.glob c) (Loop.cur c)
                ID flag tag) as (Ep & Eb).
    rewrite Ec, Eg, Ep, Eb, Eq.
    exists q.
    split; [reflexivity|]. split; [exact Vq|]. split; [reflexivity|].
    intros Et. rewrite Et. unfold remaining in *. rewrite Et in Hr.
    assert (HT : 0 < time.Minute * 25) by reflexivity.
    pose proof (Spec_percent_ratio _ _ HT Hr) as Hs.
    pose proof (ratio_unit _ _ HT Hr) as Hu.
    split.
    + rewrite Hs. exact Vq.
    + rewrite <- Vq in Hu.
      apply (same_float_Fin _ q); [apply clamp_unit; exact Hu|].
      rewrite Hs. exact Vq.
Qed.

(** The second draft, started by hand and one second in: the next tick
    finds 1499 s of 1500 s remaining and computes the specification's
    value for that. *)
Lemma C1_witness :
  exists c : V2.Config,
    V2.run [Deliver 1; Press "s"; Deliver 2; Wait time.Second; Deliver 1]
           (V2.boot 0) = Some c /\
    remaining (Loop.cur c) = time.Second * 1499 /\
    exists q : Q,
      V2.percent (Loop.glob (Loop.handle _ V2.Update c (TickMsg 1 false 0)))
      = Fin q /\
      (q == Spec.percent (Loop.target c) (remaining (Loop.cur c)))%Q.
Proof.
  eexists. split; [vm_compute; reflexivity|]. split; [reflexivity|].
  match goal with
  | |- exists q, V2.percent (Loop.glob (Loop.handle _ _ ?c _)) = _ /\ _ =>
      assert (Hc : V2.reachable c)
  end.
  { apply (V2_run_reachable
             [Deliver 1; Press "s"; Deliver 2; Wait time.Second; Deliver 1]
             (V2.boot 0)); [apply V2.reach_boot | vm_compute; reflexivity]. }
  destruct (proj2 (C1_progress_on_tick 1 false 0) _ Hc)
    as (q & Hq & _ & _ & Hs).
  destruct (Hs eq_refl) as [Hs1 _].
  exists q. split; [exact Hq | exact Hs1].
Defined.

(** C1 as stated fails.  First draft: stop the clock, resume ten seconds
    later, let one second tick: 19 of 20 s remain, yet the progress is
    11/20, the wall-clock time since the program started.  Second draft:
    press the break key and let one second tick: 299 of 300 s remain, yet
    the bar is set to 4/5, measured against the 25 min work duration. *)
Lemma C1_counterexample :
  (exists c : V1.Config,
      V1.run [Press "s"; Deliver 2; Wait time.Second; Deliver 0; Deliver 1;
              Wait (9 * time.Second); Press "s"; Deliver 5;
              Wait time.Second; Deliver 5] (V1.boot 0) = Some c /\
      Loop.target c = time.Second * 20 /\
      remaining (Loop.cur c) = time.Second * 19 /\
      V1.percent (Loop.glob c) = Fin (11 # 20) /\
      ~ same_float (V1.percent (Loop.glob c))
          (Fin (Spec.percent (Loop.target c) (remaining (Loop.cur c))))) /\
  (exists c : V2.Config,
      V2.run [Deliver 1; Press "p"; Deliver 3; Wait time.Second;
              Deliver 1; Deliver 2] (V2.boot 0) = Some c /\
      Loop.target c = time.Minute * 5 /\
      remaining (Loop.cur c) = time.Second * 299 /\
      progress.targetPercent (model.progress (Loop.cur c)) = Fin (4 # 5) /\
      ~ same_float (progress.targetPercent (model.progress (Loop.cur c)))
          (Fin (Spec.percent (Loop.target c) (remaining (Loop.cur c))))).
Proof.
  split; eexists; (split; [vm_compute; reflexivity|]);
    (split; [reflexivity|]); (split; [reflexivity|]);
    (split; [reflexivity|]); intros H; vm_compute in H; discriminate H.
Qed.

(** C7, as the code has it.  The computation has no zero guard, but its
    divisor is the work duration, which is non-zero in every state either
    draft can reach, so the result is always a finite number (no division
    by zero).  The value handed to the progress bar is clamped to [0, 1]
    by [SetPercent], and the bar's target lies in [0, 1] in every reachable
    state.  In the second draft the unclamped value lies in [0, 1] as
    well, and on a clock freshly set to the work duration it is exactly
    0. *)
Theorem C7_progress_total_bounded :
  (forall (now : time.Time) (g : V1.globals),
      math.finite (V1.progress_of now g)) /\
  (forall c : V2.Config,
      V2.reachable c ->
      V2.timeout (Loop.glob c) <> 0 /\
      (forall t : timer.Model, math.finite (V2.progress_of (Loop.glob c) t)) /\
      math.in_unit (V2.progress_of (Loop.glob c) (model.timer (Loop.cur c))) /\
      math.in_unit (progress.targetPercent (model.progress (Loop.cur c)))) /\
  (forall c : V1.Config,
      V1.reachable c ->
      math.in_unit (progress.targetPercent (model.progress (Loop.cur c)))) /\
  (forall (p : progress.Model) (x : float64),
      x <> NaN ->
      math.in_unit (progress.targetPercent (fst (progress.SetPercent p x)))) /\
  (forall (g : V2.globals) (lastID : Z),
      V2.timeout g <> 0 ->
      V2.progress_of g (timer.New lastID (V2.timeout g)) = Fin 0).
Proof.
  split; [|split; [|split; [|split]]].
  - intros now g. destruct (V1_progress_of_finite now g) as [q ->]. exact I.
  - intros c Hc.
    destruct (V2_reachable_inv c Hc) as ((_ & _ & Hr & Ht) & _ & Hb & Hg).
    assert (Hz : V2.timeout (Loop.glob c) <> 0) by (rewrite Hg; discriminate).
    split; [exact Hz|]. split; [|split; [|exact Hb]].
    + intros t. destruct (V2_progress_of_value _ t Hz) as (q & -> & _).
      exact I.
    + destruct (V2_progress_of_value _ (model.timer (Loop.cur c)) Hz)
        as (q & -> & Vq).
      rewrite Hg in Vq. unfold math.in_unit. rewrite Vq.
      apply ratio_unit; [reflexivity | lia].
  - intros c Hc. apply (V1_reachable_inv c Hc).
  - intros p x Hx. rewrite SetPercent_target. apply clamp_in_unit. exact Hx.
  - intros g lastID Hz. apply V2_progress_of_fresh; [exact Hz | reflexivity].
Qed.

(** The bounds at the second draft's start-up state, and the fresh work
    clock there. *)
Lemma C7_witness :
  math.in_unit
    (V2.progress_of (Loop.glob (V2.boot 0)) (model.timer (Loop.cur (V2.boot 0))))
  /\
  V2.progress_of (Loop.glob (V2.boot 0)) (timer.New 1 (time.Minute * 25))
  = Fin 0 /\
  math.in_unit
    (progress.targetPercent
       (fst (progress.SetPercent (model.progress V1.main) (Fin (21 # 20))))).
Proof.
  destruct C7_progress_total_bounded as (_ & H2 & _ & H4 & H5).
  destruct (H2 (V2.boot 0) (V2.reach_boot 0)) as (Hz & _ & Hu & _).
  split; [exact Hu|]. split.
  - exact (H5 (Loop.glob (V2.boot 0)) 1 Hz).
  - apply H4. discriminate.
Defined.

(** C7 as stated fails.  Second draft: right after the break key the clock
    is freshly set (300 s of 300 s remain) and the computation yields 4/5,
    not 0.  First draft: let the work timer run out, press the work key and
    let one second tick; [percent] is then 21/20, above 1. *)
Lemma C7_counterexample :
  (exists c : V2.Config,
      V2.run [Deliver 1; Press "p"] (V2.boot 0) = Some c /\
      Loop.target c = time.Minute * 5 /\
      remaining (Loop.cur c) = Loop.target c /\
      V2.progress_of (Loop.glob c) (model.timer (Loop.cur c)) = Fin (4 # 5)) /\
  (exists c : V1.Config,
      V1.run (to_timeout ++ [Press "w"; Deliver 42; Wait time.Second; Deliver 42])
             (V1.boot 0) = Some c /\
      remaining (Loop.cur c) = time.Second * 19 /\
      V1.percent (Loop.glob c) = Fin (21 # 20) /\
      ~ math.in_unit (V1.percent (Loop.glob c))).
Proof.
  split.
  - eexists. split; [vm_compute; reflexivity|].
    split; [reflexivity|]. split; [reflexivity|]. vm_compute; reflexivity.
  - eexists. split; [vm_compute; reflexivity|].
    split; [reflexivity|]. split; [reflexivity|].
    intros [_ H]. vm_compute in H. apply H. reflexivity.
Qed.

(** * Further properties of the two drafts *)

(** ** The key map *)

Lemma keymap_fixed_main : keymap_fixed main_keymap.
Proof. repeat split; reflexivity. Qed.

Lemma keymap_fixed_keys_ok (km : keymap.t) : keymap_fixed km -> keys_ok km.
Proof. intros (Hs & Hp & _). split; [rewrite Hs | rewrite Hp]; discriminate. Qed.

Lemma keymap_fixed_set_start (km : keymap.t) (v : bool) :
  keymap_fixed km ->
  keymap_fixed (keymap.set_start km (key.SetEnabled (keymap.start km) v)).
Proof. intros (H1 & H2 & H3 & H4 & H5 & H6). repeat split; assumption. Qed.

Lemma keymap_fixed_set_stop (km : keymap.t) (v : bool) :
  keymap_fixed km ->
  keymap_fixed (keymap.set_stop km (key.SetEnabled (keymap.stop km) v)).
Proof. intros (H1 & H2 & H3 & H4 & H5 & H6). repeat split; assumption. Qed.

(** The branch a key takes under the bindings of [main]. *)
Lemma command_fixed (km : keymap.t) (k : string) :
  keymap_fixed km ->
  command km k =
  if (String.eqb "q" k || String.eqb "ctrl+c" k)%bool then Some KQuit
  else if String.eqb "r" k then Some KReset
  else if ((String.eqb "s" k || String.eqb " " k)
           && (key.Enabled (keymap.start km) || key.Enabled (keymap.stop km)))%bool
       then Some KStartStop
  else if String.eqb "p" k then Some KPause
  else if String.eqb "w" k then Some KWork
  else None.
Proof.
  intros (Hs & Hp & Hr & Hq & Hb & Hw).
  unfold command, key.Matches. cbn [existsb].
  rewrite Hr, Hq, Hb, Hw, Hs, Hp. cbn [main_keymap keymap.reset keymap.quit
    keymap.pauseTimer keymap.workTimer key.NewBinding key.keys existsb].
  change (key.Enabled (key.NewBinding ["q"; "ctrl+c"]%string
                         ("q", "quit")%string)) with true.
  change (key.Enabled (key.NewBinding ["r"]%string ("r", "reset")%string))
    with true.
  change (key.Enabled (key.NewBinding ["p"]%string
                         ("p", "start break")%string)) with true.
  change (key.Enabled (key.NewBinding ["w"]%string
                         ("w", "start work")%string)) with true.
  destruct (String.eqb "q" k), (String.eqb "ctrl+c" k), (String.eqb "r" k),
    (String.eqb "s" k), (String.eqb " " k), (String.eqb "p" k),
    (String.eqb "w" k), (key.Enabled (keymap.start km)),
    (key.Enabled (keymap.stop km)); reflexivity.
Qed.

Lemma on_StartStop_keymap (m : model.t) (msg : Msg) :
  keymap_fixed (model.keymap m) ->
  keymap_fixed (model.keymap (fst (on_StartStop m msg))).
Proof.
  intros H. unfold on_StartStop.
  destruct (timer.Update (model.timer m) msg) as [t cmd]; simpl.
  apply (keymap_fixed_set_start
           (keymap.set_stop (model.keymap m)
              (key.SetEnabled (keymap.stop (model.keymap m)) _))).
  apply keymap_fixed_set_stop. exact H.
Qed.

Lemma on_Timeout_keymap (m : model.t) (msg : Msg) :
  keymap_fixed (model.keymap m) ->
  keymap_fixed (model.keymap (fst (on_Timeout m msg))).
Proof.
  intros H. unfold on_Timeout.
  destruct (timer.Update (model.timer m) msg) as [t cmd]; simpl.
  apply (keymap_fixed_set_start
           (keymap.set_stop (model.keymap m)
              (key.SetEnabled (keymap.stop (model.keymap m)) _))).
  apply keymap_fixed_set_stop. exact H.
Qed.

Lemma on_StartStop_progress (m : model.t) (msg : Msg) :
  model.progress (fst (on_StartStop m msg)) = model.progress m.
Proof. apply (on_StartStop_frame m msg). Qed.

Lemma on_Timeout_progress (m : model.t) (msg : Msg) :
  model.progress (fst (on_Timeout m msg)) = model.progress m.
Proof. apply (on_Timeout_frame m msg). Qed.

Lemma on_Frame_Width (m : model.t) (msg : Msg) :
  progress.Width (model.progress (fst (on_Frame m msg))) =
  progress.Width (model.progress m).
Proof.
  unfold on_Frame, progress.Update. destruct msg; try reflexivity.
  destruct (negb (id =? progress.id (model.progress m))
            || negb (tag =? progress.tag (model.progress m)));
    [reflexivity|].
  destruct (negb (progress.IsAnimating (model.progress m))); reflexivity.
Qed.

Lemma resize_Width (m : model.t) (w : Z) :
  progress.Width (model.progress (resize m w)) <= maxWidth.
Proof.
  destruct (resize_frame m w) as (_ & _ & _ & _ & _ & _ & _ & _ & _ & E).
  rewrite E. apply Z.le_min_l.
Qed.

Lemma V1_Update_keymap (now : time.Time) (g : V1.globals) (m : model.t)
    (msg : Msg) :
  keymap_fixed (model.keymap m) ->
  keymap_fixed (model.keymap (fst (fst (V1.Update now g m msg)))).
Proof.
  intros H. destruct msg; unfold V1.Update; cbv beta iota; try exact H.
  - destruct (timer.Update (model.timer m) _) as [t cmd]; exact H.
  - pose proof (on_StartStop_keymap m (StartStopMsg ID running0) H) as H'.
    destruct (on_StartStop m _) as [m' cmd]; exact H'.
  - destruct (command (model.keymap m) k) as [[]|]; exact H.
  - pose proof (on_Frame_frame m (FrameMsg id tag)) as (_ & E & _).
    destruct (on_Frame m _) as [m' cmd]; simpl in *. rewrite E. exact H.
  - destruct (resize_frame m Width) as (_ & E & _). simpl. rewrite E. exact H.
Qed.

Lemma V2_Update_keymap (now : time.Time) (g : V2.globals) (m : model.t)
    (msg : Msg) :
  keymap_fixed (model.keymap m) ->
  keymap_fixed (model.keymap (fst (fst (V2.Update now g m msg)))).
Proof.
  intros H. destruct msg; unfold V2.Update; cbv beta iota; try exact H.
  - simpl. destruct (timer.Update (model.timer m) _) as [t cmd]; exact H.
  - pose proof (on_StartStop_keymap m (StartStopMsg ID running0) H) as H'.
    destruct (on_StartStop m _) as [m' cmd]; exact H'.
  - destruct (command (model.keymap m) k) as [[]|]; exact H.
  - pose proof (on_Frame_frame m (FrameMsg id tag)) as (_ & E & _).
    destruct (on_Frame m _) as [m' cmd]; simpl in *. rewrite E. exact H.
  - destruct (resize_frame m Width) as (_ & E & _). simpl. rewrite E. exact H.
Qed.

Lemma V1_Update_Width (now : time.Time) (g : V1.globals) (m : model.t)
    (msg : Msg) :
  progress.Width (model.progress m) <= maxWidth ->
  progress.Width (model.progress (fst (fst (V1.Update now g m msg))))
  <= maxWidth.
Proof.
  intros H. destruct msg; unfold V1.Update; cbv beta iota; try exact H.
  - destruct (timer.Update (model.timer m) _) as [t cmd]; exact H.
  - pose proof (on_StartStop_progress m (StartStopMsg ID running0)) as E.
    destruct (on_StartStop m _) as [m' cmd]; simpl in *. rewrite E. exact H.
  - destruct (command (model.keymap m) k) as [[]|]; exact H.
  - pose proof (on_Frame_Width m (FrameMsg id tag)) as E.
    destruct (on_Frame m _) as [m' cmd]; simpl in *. rewrite E. exact H.
  - apply resize_Width.
Qed.

Lemma V2_Update_Width (now : time.Time) (g : V2.globals) (m : model.t)
    (msg : Msg) :
  progress.Width (model.progress m) <= maxWidth ->
  progress.Width (model.progress (fst (fst (V2.Update now g m msg))))
  <= maxWidth.
Proof.
  intros H. destruct msg; unfold V2.Update; cbv beta iota; try exact H.
  - simpl. destruct (timer.Update (model.timer m) _) as [t cmd]; exact H.
  - pose proof (on_StartStop_progress m (StartStopMsg ID running0)) as E.
    destruct (on_StartStop m _) as [m' cmd]; simpl in *. rewrite E. exact H.
  - destruct (command (model.keymap m) k) as [[]|]; exact H.
  - pose proof (on_Frame_Width m (FrameMsg id tag)) as E.
    destruct (on_Frame m _) as [m' cmd]; simpl in *. rewrite E. exact H.
  - apply resize_Width.
Qed.

(** ** Further invariants of the loop *)

Lemma wrap64_range (z : Z) : in_int64 (wrap64 z).
Proof.
  unfold in_int64, wrap64.
  pose proof (Z.mod_pos_bound (z + 2 ^ 63) (2 ^ 64) eq_refl). lia.
Qed.

Lemma wrap64_succ_neq (z : Z) : in_int64 z -> wrap64 (z + 1) <> z.
Proof.
  intros H. unfold in_int64 in H.
  destruct (Z.eq_dec z (2 ^ 63 - 1)) as [-> | N].
  - vm_compute. discriminate.
  - rewrite wrap64_small by (unfold in_int64; lia). lia.
Qed.

Lemma V2_Update_ids (now : time.Time) (g : V2.globals) (m : model.t)
    (msg : Msg) :
  timer.id (model.timer m) = V2.timer_lastID g ->
  in_int64 (V2.timer_lastID g) ->
  timer.id (model.timer (fst (fst (V2.Update now g m msg)))) =
    V2.timer_lastID (snd (V2.Update now g m msg)) /\
  in_int64 (V2.timer_lastID (snd (V2.Update now g m msg))).
Proof.
  intros Hi Hr.
  destruct msg; unfold V2.Update; cbv beta iota; try (split; assumption).
  - pose proof (timer_Update_frame (model.timer m) (TickMsg ID Timeout tag))
      as (_ & E & _).
    simpl. destruct (timer.Update (model.timer m) _) as [t cmd]; simpl in *.
    rewrite E. split; assumption.
  - pose proof (on_StartStop_frame m (StartStopMsg ID running0)) as (Et & _).
    pose proof (timer_Update_frame (model.timer m) (StartStopMsg ID running0))
      as (_ & E & _).
    destruct (on_StartStop m _) as [m' cmd]; simpl in *.
    rewrite Et, E. split; assumption.
  - destruct (command (model.keymap m) k) as [[]|]; simpl;
      try (split; assumption); split; try reflexivity; apply wrap64_range.
  - pose proof (on_Frame_frame m (FrameMsg id tag)) as (E & _).
    destruct (on_Frame m _) as [m' cmd]; simpl in *.
    rewrite E. split; assumption.
  - destruct (resize_frame m Width) as (E & _). simpl. rewrite E.
    split; assumption.
Qed.

Lemma V2_Update_live (now : time.Time) (g : V2.globals) (m : model.t)
    (msg : Msg) :
  keys_ok (model.keymap m) ->
  toggle_live m = true ->
  toggle_live (fst (fst (V2.Update now g m msg))) = true.
Proof.
  intros Hk Hl.
  destruct msg; unfold V2.Update; cbv beta iota; try exact Hl.
  - simpl. destruct (timer.Update (model.timer m) _) as [t cmd]; exact Hl.
  - pose proof (on_StartStop_frame m (StartStopMsg ID running0))
      as (_ & _ & _ & _ & H & _).
    destruct (H Hk) as (_ & Hs & Hp).
    destruct (on_StartStop m _) as [m' cmd]; simpl in *.
    unfold toggle_live. rewrite Hs, Hp. destruct (running m'); reflexivity.
  - pose proof (on_Timeout_frame m (TimeoutMsg ID)) as (_ & _ & _ & _ & H).
    destruct (H Hk) as (_ & Hs & Hp).
    destruct (on_Timeout m _) as [m' cmd]; simpl in *.
    unfold toggle_live. rewrite Hs, Hp. destruct (running m'); reflexivity.
  - destruct (command (model.keymap m) k) as [[]|]; try exact Hl.
    simpl. unfold toggle_live, startEnabled; simpl.
    rewrite (Enabled_SetEnabled _ true (proj1 Hk)). reflexivity.
  - pose proof (on_Frame_frame m (FrameMsg id tag)) as (_ & E & _).
    destruct (on_Frame m _) as [m' cmd]; simpl in *.
    unfold toggle_live, startEnabled, stopEnabled in *. rewrite E. exact Hl.
  - destruct (resize_frame m Width) as (_ & E & _). simpl.
    unfold toggle_live, startEnabled, stopEnabled in *. rewrite E. exact Hl.
Qed.

Lemma V1_Update_xinv (now : time.Time) (g : V1.globals) (m : model.t)
    (msg : Msg) (tgt : time.Duration) :
  xinv1 m g tgt ->
  xinv1 (fst (fst (V1.Update now g m msg))) (snd (V1.Update now g m msg))
        (if retargets (model.keymap m) msg
         then remaining (fst (fst (V1.Update now g m msg))) else tgt).
Proof.
  intros (Hi & Hk & Hw). split; [|split].
  - apply V1_Update_inv; exact Hi.
  - apply V1_Update_keymap; exact Hk.
  - apply V1_Update_Width; exact Hw.
Qed.

Lemma V2_Update_xinv (now : time.Time) (g : V2.globals) (m : model.t)
    (msg : Msg) (tgt : time.Duration) :
  xinv2 m g tgt ->
  xinv2 (fst (fst (V2.Update now g m msg))) (snd (V2.Update now g m msg))
        (if retargets (model.keymap m) msg
         then remaining (fst (fst (V2.Update now g m msg))) else tgt).
Proof.
  intros (Hi & Hk & Hw & Hid & Hr & Hl).
  destruct (V2_Update_ids now g m msg Hid Hr) as (Hid' & Hr').
  split; [|split; [|split; [|split; [|split]]]].
  - apply V2_Update_inv; exact Hi.
  - apply V2_Update_keymap; exact Hk.
  - apply V2_Update_Width; exact Hw.
  - exact Hid'.
  - exact Hr'.
  - apply V2_Update_live; [apply keymap_fixed_keys_ok; exact Hk | exact Hl].
Qed.

Lemma V1_reachable_xinv (c : V1.Config) : V1.reachable c -> holds xinv1 c.
Proof.
  intros Hc. pose proof (V1_reachable_inv c Hc) as Hi.
  induction Hc as [t0 | c c' e Hc IH Hs].
  - split; [exact Hi|]. split; [apply keymap_fixed_main|].
    vm_compute. discriminate.
  - exact (step_holds _ _ _ V1_Update_xinv c c' e
             (IH (V1_reachable_inv c Hc)) Hs).
Qed.

Lemma V2_reachable_xinv (c : V2.Config) : V2.reachable c -> holds xinv2 c.
Proof.
  intros Hc. pose proof (V2_reachable_inv c Hc) as Hi.
  induction Hc as [t0 | c c' e Hc IH Hs].
  - split; [exact Hi|]. split; [apply keymap_fixed_main|].
    split; [vm_compute; discriminate|]. split; [reflexivity|].
    split; [vm_compute; split; [discriminate | reflexivity] | reflexivity].
  - exact (step_holds _ _ _ V2_Update_xinv c c' e
             (IH (V2_reachable_inv c Hc)) Hs).
Qed.

(** ** Keys *)

Lemma handle_Nil (G : Type)
    (Update : time.Time -> G -> model.t -> Msg -> model.t * Cmd * G)
    (c : Loop.Config G) (msg : Msg) :
  Update (Loop.now c) (Loop.glob c) (Loop.cur c) msg
  = (Loop.cur c, Nil, Loop.glob c) ->
  retargets (model.keymap (Loop.cur c)) msg = false ->
  Loop.handle G Update c msg = c.
Proof.
  intros E R. unfold Loop.handle. rewrite E, R. simpl.
  rewrite app_nil_r. destruct c; reflexivity.
Qed.

Lemma command_unbound (km : keymap.t) (k : string) :
  keymap_fixed km -> ~ In k bound_keys -> command km k = None.
Proof.
  intros H N. rewrite (command_fixed km k H).
  assert (E : forall s, In s bound_keys -> String.eqb s k = false).
  { intros s Hs. apply String.eqb_neq. intros ->. exact (N Hs). }
  rewrite (E "q"%string), (E "ctrl+c"%string), (E "r"%string),
    (E "s"%string), (E " "%string), (E "p"%string), (E "w"%string)
    by (unfold bound_keys; simpl; tauto).
  reflexivity.
Qed.

(** X1 (fixed keys).  In every state either draft can reach, the bindings
    for quit, reset, break and work are the ones [main] installed and are
    enabled: q and ctrl+c take the quit branch, r the reset branch, p the
    break branch and w the work branch of [Update]. *)
Theorem X1_fixed_keys :
  (forall c : V1.Config,
      V1.reachable c ->
      let km := model.keymap (Loop.cur c) in
      command km "q" = Some KQuit /\ command km "ctrl+c" = Some KQuit /\
      command km "r" = Some KReset /\ command km "p" = Some KPause /\
      command km "w" = Some KWork) /\
  (forall c : V2.Config,
      V2.reachable c ->
      let km := model.keymap (Loop.cur c) in
      command km "q" = Some KQuit /\ command km "ctrl+c" = Some KQuit /\
      command km "r" = Some KReset /\ command km "p" = Some KPause /\
      command km "w" = Some KWork).
Proof.
  split; intros c Hc; cbv zeta.
  - destruct (V1_reachable_xinv c Hc) as (_ & Hk & _).
    rewrite !(command_fixed _ _ Hk). repeat split; reflexivity.
  - destruct (V2_reachable_xinv c Hc) as (_ & Hk & _).
    rewrite !(command_fixed _ _ Hk). repeat split; reflexivity.
Qed.

(** The reset key still resets after the first draft has timed out. *)
Lemma X1_witness :
  exists c : V1.Config,
    V1.run to_timeout (V1.boot 0) = Some c /\
    command (model.keymap (Loop.cur c)) "r" = Some KReset.
Proof.
  eexists. split; [vm_compute; reflexivity|].
  apply (proj1 X1_fixed_keys).
  apply (V1_run_reachable to_timeout (V1.boot 0)); [apply V1.reach_boot|].
  vm_compute; reflexivity.
Defined.

(** X2 (unbound keys).  In every state either draft can reach, a key that
    no binding lists (anything but q, ctrl+c, r, s, space, p, w) falls
    through the switch: model, package-level variables, queue and target
    are exactly as before. *)
Theorem X2_unbound_key_ignored (k : string) :
  ~ In k bound_keys ->
  (forall c : V1.Config,
      V1.reachable c -> Loop.handle _ V1.Update c (KeyMsg k) = c) /\
  (forall c : V2.Config,
      V2.reachable c -> Loop.handle _ V2.Update c (KeyMsg k) = c).
Proof.
  intros N. split; intros c Hc.
  - destruct (V1_reachable_xinv c Hc) as (_ & Hk & _).
    pose proof (command_unbound _ k Hk N) as E.
    apply handle_Nil.
    + unfold V1.Update. rewrite E. reflexivity.
    + unfold retargets. rewrite E. reflexivity.
  - destruct (V2_reachable_xinv c Hc) as (_ & Hk & _).
    pose proof (command_unbound _ k Hk N) as E.
    apply handle_Nil.
    + unfold V2.Update. rewrite E. reflexivity.
    + unfold retargets. rewrite E. reflexivity.
Qed.

(** The key x at the second draft's start-up state. *)
Lemma X2_witness :
  Loop.handle _ V2.Update (V2.boot 0) (KeyMsg "x") = V2.boot 0.
Proof.
  apply (proj2 (X2_unbound_key_ignored "x"
                  ltac:(unfold bound_keys; simpl; intuition discriminate))
           (V2.boot 0) (V2.reach_boot 0)).
Defined.

(** X3 (toggle key).  In every reachable state the keys s and space take
    the toggle branch exactly when Start or Stop is enabled.  In the second
    draft one of the two always is, so the toggle key never goes dead
    there. *)
Theorem X3_toggle_key (k : string) :
  k = "s"%string \/ k = " "%string ->
  (forall c : V1.Config,
      V1.reachable c ->
      command (model.keymap (Loop.cur c)) k =
      if toggle_live (Loop.cur c) then Some KStartStop else None) /\
  (forall c : V2.Config,
      V2.reachable c ->
      toggle_live (Loop.cur c) = true /\
      command (model.keymap (Loop.cur c)) k = Some KStartStop).
Proof.
  intros Hk. split; intros c Hc.
  - destruct (V1_reachable_xinv c Hc) as (_ & Hf & _).
    rewrite (command_fixed _ _ Hf). unfold toggle_live, startEnabled, stopEnabled.
    destruct Hk as [-> | ->];
      destruct (key.Enabled (keymap.start _) || key.Enabled (keymap.stop _));
      reflexivity.
  - destruct (V2_reachable_xinv c Hc) as (_ & Hf & _ & _ & _ & Hl).
    split; [exact Hl|].
    rewrite (command_fixed _ _ Hf).
    unfold toggle_live, startEnabled, stopEnabled in Hl. rewrite Hl.
    destruct Hk as [-> | ->]; reflexivity.
Qed.

(** The space key in the first draft once stop-then-reset has disabled both
    controls: it does nothing. *)
Lemma X3_witness :
  exists c : V1.Config,
    V1.run [Press "s"; Deliver 2; Press "r"] (V1.boot 0) = Some c /\
    command (model.keymap (Loop.cur c)) " " = None.
Proof.
  eexists. split; [vm_compute; reflexivity|].
  match goal with
  | |- command (model.keymap (Loop.cur ?c)) _ = _ =>
      assert (Hc : V1.reachable c)
  end.
  { apply (V1_run_reachable [Press "s"; Deliver 2; Press "r"] (V1.boot 0));
      [apply V1.reach_boot | vm_compute; reflexivity]. }
  rewrite (proj1 (X3_toggle_key " " (or_intror eq_refl)) _ Hc).
  reflexivity.
Defined.

(** ** Ticks *)

Lemma emits_Batch (now : time.Time) (cs : list Cmd) (x : time.Time * Msg) :
  emits now (Batch cs) x <-> exists c, In c cs /\ emits now c x.
Proof.
  unfold emits. cbn [tea.sched]. rewrite in_flat_map. reflexivity.
Qed.

Lemma emits_Tick (now : time.Time) (d : time.Duration)
    (f : time.Time -> Msg) (x : time.Time * Msg) :
  emits now (tea.Tick d f) x <-> x = (now + d, f (now + d)).
Proof.
  unfold emits, tea.Tick. cbn [tea.sched In].
  split; [intros [H | []]; symmetry; exact H | intros ->; left; reflexivity].
Qed.

Lemma emits_Nil (now : time.Time) (x : time.Time * Msg) :
  emits now Nil x <-> False.
Proof. unfold emits. cbn [tea.sched In]. tauto. Qed.

Lemma emits_Emit (now : time.Time) (m : Msg) (x : time.Time * Msg) :
  emits now (Emit m) x <-> x = (now, m).
Proof.
  unfold emits. cbn [tea.sched In].
  split; [intros [H | []]; symmetry; exact H | intros ->; left; reflexivity].
Qed.

Lemma handle_pending (G : Type)
    (Update : time.Time -> G -> model.t -> Msg -> model.t * Cmd * G)
    (c : Loop.Config G) (msg : Msg) (x : time.Time * Msg) :
  In x (Loop.pending (Loop.handle G Update c msg)) <->
  In x (Loop.pending c) \/
  emits (Loop.now c)
        (snd (fst (Update (Loop.now c) (Loop.glob c) (Loop.cur c) msg))) x.
Proof.
  destruct (handle_fields G Update c msg) as (_ & _ & E & _).
  rewrite E, in_app_iff. reflexivity.
Qed.

Lemma timer_tick_stopped (t : timer.Model) (ID : Z) (flag : bool) (tg : Z) :
  timer.Running t = false -> timer.Update t (TickMsg ID flag tg) = (t, Nil).
Proof. intros R. unfold timer.Update. rewrite R. reflexivity. Qed.

Lemma timer_tick_running (t : timer.Model) (tgt : time.Duration)
    (ID : Z) (flag : bool) (tg : Z) :
  clock_ok t tgt -> timer.Running t = true ->
  ID = 0 \/ ID = timer.id t -> tg <= 0 \/ tg = timer.tag t ->
  timer.Update t (TickMsg ID flag tg) =
  (timer.set_Timeout t (timer.Timeout t - time.Second),
   Batch [timer.tick (timer.set_Timeout t (timer.Timeout t - time.Second));
          timer.timedout
            (timer.set_Timeout t (timer.Timeout t - time.Second))]).
Proof.
  intros (Hi & _ & Hr & Ht) R HID Htg.
  unfold timer.Update. rewrite R.
  assert (F : timer.foreign ID t = false).
  { unfold timer.foreign. destruct HID as [-> | ->].
    - reflexivity.
    - rewrite Z.eqb_refl. apply andb_false_r. }
  assert (T : (0 <? tg) && negb (tg =? timer.tag t) = false).
  { destruct Htg as [H | ->].
    - apply Z.ltb_ge in H. rewrite H. reflexivity.
    - rewrite Z.eqb_refl. apply andb_false_r. }
  rewrite F, T. cbn [negb orb]. rewrite Hi.
  apply Running_positive in R. destruct R as [R _].
  unfold time.Minute, time.Second in *.
  rewrite wrap64_small by (unfold in_int64; lia). reflexivity.
Qed.

Lemma Running_after_tick (t : timer.Model) (d : time.Duration) :
  timer.running t = true ->
  timer.Running (timer.set_Timeout t d) = negb (d <=? 0).
Proof.
  intros R. unfold timer.Running, timer.Timedout. simpl. rewrite R.
  destruct (d <=? 0); reflexivity.
Qed.

(** X4 (ticks on a stopped clock).  While the clock is not running
    (stopped or timed out), a timer tick leaves the timer as it is and no
    further timer tick is scheduled: the chain of ticks ends there, in both
    drafts. *)
Theorem X4_stopped_clock_drops_tick
    (now : time.Time) (g1 : V1.globals) (g2 : V2.globals) (m : model.t)
    (ID : Z) (flag : bool) (tg : Z) :
  running m = false ->
  let r1 := V1.Update now g1 m (TickMsg ID flag tg) in
  let r2 := V2.Update now g2 m (TickMsg ID flag tg) in
  model.timer (fst (fst r1)) = model.timer m /\
  model.timer (fst (fst r2)) = model.timer m /\
  (forall x, emits now (snd (fst r1)) x -> is_TickMsg (snd x) = false) /\
  (forall x, emits now (snd (fst r2)) x -> is_TickMsg (snd x) = false).
Proof.
  intros R. cbv zeta. unfold V1.Update, V2.Update, running in *.
  cbn [progress.SetPercent model.set_progress model.timer].
  rewrite (timer_tick_stopped _ ID flag tg R).
  cbn [fst snd model.set_timer model.timer].
  split; [reflexivity | split; [reflexivity | split]].
  - intros x Hx. apply emits_Batch in Hx. destruct Hx as (c & Hc & Hx).
    destruct Hc as [<- | [<- | [<- | []]]].
    + apply emits_Tick in Hx. subst x. reflexivity.
    + apply emits_Nil in Hx. contradiction.
    + apply emits_Tick in Hx. subst x. reflexivity.
  - intros x Hx. apply emits_Batch in Hx. destruct Hx as (c & Hc & Hx).
    destruct Hc as [<- | [<- | []]].
    + apply emits_Tick in Hx. subst x. reflexivity.
    + apply emits_Nil in Hx. contradiction.
Qed.

(** A tick arriving at the second draft's clock after the stop message of
    [Init] has been processed. *)
Lemma X4_witness :
  exists c : V2.Config,
    V2.run [Deliver 1] (V2.boot 0) = Some c /\
    model.timer
      (fst (fst (V2.Update (Loop.now c) (Loop.glob c) (Loop.cur c)
                   (TickMsg 1 false 0)))) = model.timer (Loop.cur c).
Proof.
  eexists. split; [vm_compute; reflexivity|].
  apply (X4_stopped_clock_drops_tick 0 {| V1.percent := Fin 0; V1.start := 0 |}).
  reflexivity.
Defined.

Lemma timer_cmd_emits (now : time.Time) (t : timer.Model)
    (x : time.Time * Msg) :
  emits now (Batch [timer.tick t; timer.timedout t]) x <->
  x = (now + timer.Interval t,
       TickMsg (timer.id t) (timer.Timedout t) (timer.tag t)) \/
  (timer.Timedout t = true /\ x = (now, TimeoutMsg (timer.id t))).
Proof.
  rewrite emits_Batch. unfold timer.tick, timer.timedout. split.
  - intros (c & [<- | [<- | []]] & Hx).
    + apply emits_Tick in Hx. left. exact Hx.
    + destruct (timer.Timedout t); simpl in Hx.
      * apply emits_Emit in Hx. right. split; [reflexivity | exact Hx].
      * apply emits_Nil in Hx. contradiction.
  - intros [-> | [T ->]].
    + eexists. split; [left; reflexivity|]. apply emits_Tick. reflexivity.
    + eexists. split; [right; left; reflexivity|]. rewrite T. simpl.
      apply emits_Emit. reflexivity.
Qed.

(** What a tick accepted by a running clock does, read off the timer. *)
Lemma running_tick_timer (m : model.t) (tgt : time.Duration)
    (ID : Z) (flag : bool) (tg : Z) :
  clock_ok (model.timer m) tgt -> running m = true ->
  ID = 0 \/ ID = timer.id (model.timer m) ->
  tg <= 0 \/ tg = timer.tag (model.timer m) ->
  let t' := timer.set_Timeout (model.timer m) (remaining m - time.Second) in
  timer.Update (model.timer m) (TickMsg ID flag tg) =
    (t', Batch [timer.tick t'; timer.timedout t']) /\
  0 <= remaining m - time.Second /\
  timer.Interval t' = time.Second /\
  (timer.Timedout t' = true <-> remaining m - time.Second = 0) /\
  timer.Running t' = negb (remaining m - time.Second =? 0).
Proof.
  intros Hc R HID Htg. cbv zeta.
  pose proof (timer_tick_running _ _ ID flag tg Hc R HID Htg) as E.
  pose proof (timer_Update_ok _ (TickMsg ID flag tg) _ Hc) as Hc'.
  rewrite E in Hc'. destruct Hc' as (Hi & _ & Hr & _). simpl in Hi, Hr.
  unfold remaining, running in *.
  destruct (Running_positive _ R) as [_ Rf].
  split; [exact E|]. split; [lia|]. split; [exact Hi|]. split.
  - unfold timer.Timedout; simpl. rewrite Z.leb_le. lia.
  - rewrite (Running_after_tick _ _ Rf). f_equal.
    destruct (Z.leb_spec (timer.Timeout (model.timer m) - time.Second) 0);
      destruct (Z.eqb_spec (timer.Timeout (model.timer m) - time.Second) 0);
      try reflexivity; lia.
Qed.

(** X5 (a tick on a running clock).  In every reachable state with the
    clock running, a tick the timer accepts takes exactly one second off
    the remaining time, leaves the clock running unless that brought it to
    0, schedules exactly one further timer tick, one second later, and
    sends the timeout message if and only if the remaining time has just
    reached 0.  Both drafts. *)
Theorem X5_running_tick (msg : Msg) :
  (forall c : V1.Config,
      V1.reachable c -> running (Loop.cur c) = true ->
      accepted_tick (Loop.cur c) msg ->
      let r := V1.Update (Loop.now c) (Loop.glob c) (Loop.cur c) msg in
      let m' := fst (fst r) in
      remaining m' = remaining (Loop.cur c) - time.Second /\
      running m' = negb (remaining m' =? 0) /\
      emits (Loop.now c) (snd (fst r))
            (Loop.now c + time.Second, own_tick m') /\
      (forall x, emits (Loop.now c) (snd (fst r)) x ->
                 is_TickMsg (snd x) = true ->
                 x = (Loop.now c + time.Second, own_tick m')) /\
      (emits (Loop.now c) (snd (fst r))
             (Loop.now c, TimeoutMsg (timer.id (model.timer m')))
       <-> remaining m' = 0)) /\
  (forall c : V2.Config,
      V2.reachable c -> running (Loop.cur c) = true ->
      accepted_tick (Loop.cur c) msg ->
      let r := V2.Update (Loop.now c) (Loop.glob c) (Loop.cur c) msg in
      let m' := fst (fst r) in
      remaining m' = remaining (Loop.cur c) - time.Second /\
      running m' = negb (remaining m' =? 0) /\
      emits (Loop.now c) (snd (fst r))
            (Loop.now c + time.Second, own_tick m') /\
      (forall x, emits (Loop.now c) (snd (fst r)) x ->
                 is_TickMsg (snd x) = true ->
                 x = (Loop.now c + time.Second, own_tick m')) /\
      (emits (Loop.now c) (snd (fst r))
             (Loop.now c, TimeoutMsg (timer.id (model.timer m')))
       <-> remaining m' = 0)).
Proof.
  split; intros c Hc R (ID & flag & tg & -> & HID & Htg); cbv zeta.
  - destruct (V1_reachable_inv c Hc) as (Hck & _).
    destruct (running_tick_timer _ _ ID flag tg Hck R HID Htg)
      as (E & Hpos & Hi & HT & HR).
    unfold V1.Update. rewrite E.
    cbn [fst snd progress.SetPercent model.set_progress model.set_timer
         model.timer remaining running own_tick].
    set (t' := timer.set_Timeout (model.timer (Loop.cur c))
                 (remaining (Loop.cur c) - time.Second)) in *.
    split; [reflexivity|]. split; [exact HR|].
    assert (Hx : forall x,
               emits (Loop.now c)
                 (Batch [tickCmd; Batch [timer.tick t'; timer.timedout t'];
                         progress.nextFrame
                           (fst (progress.SetPercent
                                   (model.progress (Loop.cur c))
                                   (V1.progress_of (Loop.now c) (Loop.glob c))))])
                 x <->
               x = (Loop.now c + time.Minute * 1,
                    tickMsg (Loop.now c + time.Minute * 1)) \/
               emits (Loop.now c) (Batch [timer.tick t'; timer.timedout t']) x \/
               x = (Loop.now c + time.Second / progress.fps,
                    FrameMsg (progress.id (model.progress (Loop.cur c)))
                      (wrap64 (progress.tag (model.progress (Loop.cur c)) + 1)))).
    { intros x. rewrite emits_Batch. split.
      - intros (c0 & [<- | [<- | [<- | []]]] & H).
        + left. apply emits_Tick in H. exact H.
        + right; left. exact H.
        + right; right. apply emits_Tick in H. exact H.
      - intros [-> | [H | ->]].
        + eexists. split; [left; reflexivity|]. apply emits_Tick. reflexivity.
        + eexists. split; [right; left; reflexivity|]. exact H.
        + eexists. split; [right; right; left; reflexivity|].
          apply emits_Tick. reflexivity. }
    split; [|split].
    + apply Hx. right; left. apply timer_cmd_emits. left. rewrite Hi.
      reflexivity.
    + intros x H Hk. apply Hx in H. destruct H as [-> | [H | ->]];
        try discriminate.
      apply timer_cmd_emits in H. destruct H as [-> | [_ ->]];
        [rewrite Hi; reflexivity | discriminate].
    + rewrite Hx, timer_cmd_emits. split.
      * intros [H | [[H | [T _]] | H]]; try discriminate. apply HT. exact T.
      * intros H. right; left. right. split; [apply HT; exact H | reflexivity].
  - destruct (V2_reachable_inv c Hc) as (Hck & _).
    destruct (running_tick_timer _ _ ID flag tg Hck R HID Htg)
      as (E & Hpos & Hi & HT & HR).
    unfold V2.Update.
    cbn [progress.SetPercent model.set_progress model.timer V2.percent].
    rewrite E.
    cbn [fst snd model.set_progress model.set_timer
         model.timer remaining running own_tick].
    set (t' := timer.set_Timeout (model.timer (Loop.cur c))
                 (remaining (Loop.cur c) - time.Second)) in *.
    split; [reflexivity|]. split; [exact HR|].
    assert (Hx : forall x,
               emits (Loop.now c)
                 (Batch [progress.nextFrame
                           (fst (progress.SetPercent
                                   (model.progress (Loop.cur c))
                                   (V2.progress_of (Loop.glob c)
                                      (model.timer (Loop.cur c)))));
                         Batch [timer.tick t'; timer.timedout t']])
                 x <->
               emits (Loop.now c) (Batch [timer.tick t'; timer.timedout t']) x \/
               x = (Loop.now c + time.Second / progress.fps,
                    FrameMsg (progress.id (model.progress (Loop.cur c)))
                      (wrap64 (progress.tag (model.progress (Loop.cur c)) + 1)))).
    { intros x. rewrite emits_Batch. split.
      - intros (c0 & [<- | [<- | []]] & H).
        + right. apply emits_Tick in H. exact H.
        + left. exact H.
      - intros [H | ->].
        + eexists. split; [right; left; reflexivity|]. exact H.
        + eexists. split; [left; reflexivity|]. apply emits_Tick. reflexivity. }
    split; [|split].
    + apply Hx. left. apply timer_cmd_emits. left. rewrite Hi. reflexivity.
    + intros x H Hk. apply Hx in H. destruct H as [H | ->];
        try discriminate.
      apply timer_cmd_emits in H. destruct H as [-> | [_ ->]];
        [rewrite Hi; reflexivity | discriminate].
    + rewrite Hx, timer_cmd_emits. split.
      * intros [[H | [T _]] | H]; try discriminate. apply HT. exact T.
      * intros H. left. right. split; [apply HT; exact H | reflexivity].
Qed.

(** The first tick of the first draft, one second after start-up. *)
Lemma X5_witness :
  remaining
    (fst (fst (V1.Update (Loop.now (V1.boot 0)) (Loop.glob (V1.boot 0))
                 (Loop.cur (V1.boot 0)) (TickMsg 1 false 0))))
  = remaining (Loop.cur (V1.boot 0)) - time.Second.
Proof.
  assert (A : accepted_tick (Loop.cur (V1.boot 0)) (TickMsg 1 false 0)).
  { exists 1, false, 0. split; [reflexivity|].
    split; [right; reflexivity | left; reflexivity]. }
  destruct (proj1 (X5_running_tick (TickMsg 1 false 0)) (V1.boot 0)
              (V1.reach_boot 0) eq_refl A) as (H & _).
  exact H.
Defined.

Lemma own_tick_step (G : Type)
    (Update : time.Time -> G -> model.t -> Msg -> model.t * Cmd * G)
    (c : Loop.Config G) :
  (forall now g m ID flag tg,
      model.timer (fst (fst (Update now g m (TickMsg ID flag tg)))) =
      fst (timer.Update (model.timer m) (TickMsg ID flag tg))) ->
  clock_ok (model.timer (Loop.cur c)) (Loop.target c) ->
  running (Loop.cur c) = true ->
  let c' := Loop.handle G Update c (own_tick (Loop.cur c)) in
  clock_ok (model.timer (Loop.cur c')) (Loop.target c') /\
  remaining (Loop.cur c') = remaining (Loop.cur c) - time.Second /\
  running (Loop.cur c') = negb (remaining (Loop.cur c') =? 0) /\
  Loop.target c' = Loop.target c.
Proof.
  intros HU Hc R. cbv zeta.
  destruct (handle_fields G Update c (own_tick (Loop.cur c)))
    as (Ec & _ & _ & _ & Et).
  unfold own_tick in *. cbn [retargets] in Et.
  destruct (running_tick_timer _ _ (timer.id (model.timer (Loop.cur c)))
              (timer.Timedout (model.timer (Loop.cur c)))
              (timer.tag (model.timer (Loop.cur c))) Hc R
              (or_intror eq_refl) (or_intror eq_refl))
    as (E & _ & _ & _ & HR).
  pose proof (timer_Update_ok _ (TickMsg (timer.id (model.timer (Loop.cur c)))
                (timer.Timedout (model.timer (Loop.cur c)))
                (timer.tag (model.timer (Loop.cur c)))) _ Hc) as Hc'.
  unfold remaining, running. rewrite Ec, HU, Et.
  rewrite E in *. cbn [fst timer.set_Timeout timer.Timeout] in *.
  split; [exact Hc' | split; [reflexivity | split; [exact HR | reflexivity]]].
Qed.

Lemma ticks_countdown (G : Type)
    (Update : time.Time -> G -> model.t -> Msg -> model.t * Cmd * G)
    (c : Loop.Config G) (n : nat) :
  (forall now g m ID flag tg,
      model.timer (fst (fst (Update now g m (TickMsg ID flag tg)))) =
      fst (timer.Update (model.timer m) (TickMsg ID flag tg))) ->
  clock_ok (model.timer (Loop.cur c)) (Loop.target c) ->
  running (Loop.cur c) = true ->
  remaining (Loop.cur c) = Z.of_nat n * time.Second ->
  forall k : nat,
    (k <= n)%nat ->
    let ck := ticks Update k c in
    clock_ok (model.timer (Loop.cur ck)) (Loop.target ck) /\
    remaining (Loop.cur ck) = Z.of_nat (n - k) * time.Second /\
    running (Loop.cur ck) = negb (Nat.eqb k n) /\
    timedOut (Loop.cur ck) = Nat.eqb k n /\
    Loop.target ck = Loop.target c.
Proof.
  intros HU Hc R Hn. induction k as [|k IH]; intros Hk; cbv zeta.
  - unfold ticks; cbn [Nat.iter]. rewrite Nat.sub_0_r.
    split; [exact Hc|]. split; [exact Hn|].
    destruct (Running_positive _ R) as [Hp _].
    assert (E0 : Nat.eqb 0 n = false).
    { apply Nat.eqb_neq. intros <-. unfold remaining in Hn.
      rewrite Hn in Hp. simpl in Hp. lia. }
    rewrite E0. split; [exact R|]. split; [|reflexivity].
    unfold timedOut, timer.Timedout. apply Z.leb_gt. exact Hp.
  - destruct (IH ltac:(lia)) as (Hck & Hrk & HRk & _ & Htk).
    assert (Hlt : Nat.eqb k n = false) by (apply Nat.eqb_neq; lia).
    rewrite Hlt in HRk. cbn [negb] in HRk.
    change (ticks Update (S k) c)
      with (Loop.handle G Update (ticks Update k c)
              (own_tick (Loop.cur (ticks Update k c)))).
    set (ck := ticks Update k c) in *.
    destruct (own_tick_step G Update ck HU Hck HRk) as (Hc' & Hr' & HR' & Ht').
    set (c' := Loop.handle G Update ck (own_tick (Loop.cur ck))) in *.
    assert (Er : remaining (Loop.cur c') = Z.of_nat (n - S k) * time.Second).
    { rewrite Hr', Hrk. unfold time.Second. lia. }
    assert (Ez : (remaining (Loop.cur c') =? 0) = Nat.eqb (S k) n).
    { rewrite Er.
      destruct (Nat.eqb_spec (S k) n) as [<- | N].
      - rewrite Nat.sub_diag. reflexivity.
      - apply Z.eqb_neq. unfold time.Second. lia. }
    split; [exact Hc'|]. split; [exact Er|].
    split; [rewrite HR', Ez; reflexivity|].
    split; [|rewrite Ht'; exact Htk].
    rewrite <- Ez. destruct Hc' as (_ & _ & Hge & _).
    unfold timedOut, timer.Timedout, remaining in *.
    destruct (Z.leb_spec (timer.Timeout (model.timer (Loop.cur c'))) 0);
      destruct (Z.eqb_spec (timer.Timeout (model.timer (Loop.cur c'))) 0);
      try reflexivity; lia.
Qed.

(** X6 (the countdown completes).  From a reachable state whose clock is
    running with [n] whole seconds left, [k <= n] of the timer's own ticks
    leave [n - k] seconds; the clock keeps running until the [n]-th tick
    and is timed out (and no longer running) exactly after it.  The target
    is untouched.  Both drafts. *)
Theorem X6_countdown (n k : nat) :
  (k <= n)%nat ->
  (forall c : V1.Config,
      V1.reachable c -> running (Loop.cur c) = true ->
      remaining (Loop.cur c) = Z.of_nat n * time.Second ->
      let ck := ticks V1.Update k c in
      remaining (Loop.cur ck) = Z.of_nat (n - k) * time.Second /\
      running (Loop.cur ck) = negb (Nat.eqb k n) /\
      timedOut (Loop.cur ck) = Nat.eqb k n /\
      Loop.target ck = Loop.target c) /\
  (forall c : V2.Config,
      V2.reachable c -> running (Loop.cur c) = true ->
      remaining (Loop.cur c) = Z.of_nat n * time.Second ->
      let ck := ticks V2.Update k c in
      remaining (Loop.cur ck) = Z.of_nat (n - k) * time.Second /\
      running (Loop.cur ck) = negb (Nat.eqb k n) /\
      timedOut (Loop.cur ck) = Nat.eqb k n /\
      Loop.target ck = Loop.target c).
Proof.
  intros Hk. split; intros c Hc R Hn.
  - destruct (V1_reachable_inv c Hc) as (Hck & _).
    apply (ticks_countdown _ V1.Update c n
             (fun now g m ID flag tg =>
                V1_Update_timer now g m (TickMsg ID flag tg) eq_refl)
             Hck R Hn k Hk).
  - destruct (V2_reachable_inv c Hc) as (Hck & _).
    apply (ticks_countdown _ V2.Update c n
             (fun now g m ID flag tg =>
                V2_Update_timer now g m (TickMsg ID flag tg) eq_refl)
             Hck R Hn k Hk).
Qed.

(** The first draft's 20 s work timer, left alone for twenty ticks. *)
Lemma X6_witness :
  remaining (Loop.cur (ticks V1.Update 20 (V1.boot 0))) = 0 /\
  timedOut (Loop.cur (ticks V1.Update 20 (V1.boot 0))) = true.
Proof.
  destruct (proj1 (X6_countdown 20 20 (le_n 20)) (V1.boot 0)
              (V1.reach_boot 0) eq_refl eq_refl) as (H1 & _ & H3 & _).
  split; [exact H1 | exact H3].
Defined.

(** X7 (monotonic countdown).  In every reachable state, a message that
    is not a retargeting key either leaves the remaining time as it is or,
    the clock running, takes exactly one second off; so the remaining time
    never grows and never drops below 0.  Both drafts. *)
Theorem X7_remaining_monotone (msg : Msg) :
  (forall c : V1.Config,
      V1.reachable c ->
      retargets (model.keymap (Loop.cur c)) msg = false ->
      let r' := remaining (Loop.cur (Loop.handle _ V1.Update c msg)) in
      (r' = remaining (Loop.cur c) \/
       (running (Loop.cur c) = true /\
        r' = remaining (Loop.cur c) - time.Second)) /\
      0 <= r' <= remaining (Loop.cur c)) /\
  (forall c : V2.Config,
      V2.reachable c ->
      retargets (model.keymap (Loop.cur c)) msg = false ->
      let r' := remaining (Loop.cur (Loop.handle _ V2.Update c msg)) in
      (r' = remaining (Loop.cur c) \/
       (running (Loop.cur c) = true /\
        r' = remaining (Loop.cur c) - time.Second)) /\
      0 <= r' <= remaining (Loop.cur c)).
Proof.
  split; intros c Hc R; cbv zeta.
  - destruct (V1_reachable_inv c Hc) as (Hck & _).
    destruct (handle_fields _ V1.Update c msg) as (Ec & _).
    pose proof (timer_Update_ok _ msg _ Hck) as (_ & _ & Hr' & _).
    destruct Hck as (Hi & _ & Hr & Ht).
    unfold remaining, running.
    rewrite Ec, (V1_Update_timer _ _ _ msg R).
    destruct (timer_Update_frame (model.timer (Loop.cur c)) msg)
      as (_ & _ & _ & [E | [Rn E]]).
    + rewrite E. split; [left; reflexivity | lia].
    + rewrite E in *. rewrite Hi in *.
      destruct (Running_positive _ Rn) as [Hp _].
      unfold time.Minute, time.Second in *.
      rewrite wrap64_small in * by (unfold in_int64; lia).
      split; [right; split; [exact Rn | reflexivity] | lia].
  - destruct (V2_reachable_inv c Hc) as (Hck & _).
    destruct (handle_fields _ V2.Update c msg) as (Ec & _).
    pose proof (timer_Update_ok _ msg _ Hck) as (_ & _ & Hr' & _).
    destruct Hck as (Hi & _ & Hr & Ht).
    unfold remaining, running.
    rewrite Ec, (V2_Update_timer _ _ _ msg R).
    destruct (timer_Update_frame (model.timer (Loop.cur c)) msg)
      as (_ & _ & _ & [E | [Rn E]]).
    + rewrite E. split; [left; reflexivity | lia].
    + rewrite E in *. rewrite Hi in *.
      destruct (Running_positive _ Rn) as [Hp _].
      unfold time.Minute, time.Second in *.
      rewrite wrap64_small in * by (unfold in_int64; lia).
      split; [right; split; [exact Rn | reflexivity] | lia].
Qed.

(** The toggle key at the first draft's start-up state: the remaining time
    stays within its bounds. *)
Lemma X7_witness :
  0 <= remaining (Loop.cur (Loop.handle _ V1.Update (V1.boot 0) (KeyMsg "s")))
    <= remaining (Loop.cur (V1.boot 0)).
Proof.
  apply (proj1 (X7_remaining_monotone (KeyMsg "s")) (V1.boot 0)
           (V1.reach_boot 0) eq_refl).
Defined.

(** ** Toggling *)

Lemma Running_field (t : timer.Model) :
  0 < timer.Timeout t -> timer.Running t = timer.running t.
Proof.
  intros H. unfold timer.Running, timer.Timedout.
  apply Z.leb_gt in H. rewrite H. destruct (timer.running t); reflexivity.
Qed.

Lemma toggle_once (G : Type)
    (Update : time.Time -> G -> model.t -> Msg -> model.t * Cmd * G)
    (k : string) (c : Loop.Config G) :
  (forall now g m,
      command (model.keymap m) k = Some KStartStop ->
      Update now g m (KeyMsg k) = (m, timer.Toggle (model.timer m), g)) ->
  (forall now g m ID v,
      fst (fst (Update now g m (StartStopMsg ID v))) =
      fst (on_StartStop m (StartStopMsg ID v))) ->
  k = "s"%string \/ k = " "%string ->
  keymap_fixed (model.keymap (Loop.cur c)) ->
  toggle_live (Loop.cur c) = true ->
  0 < remaining (Loop.cur c) ->
  let c1 := Loop.handle G Update c (KeyMsg k) in
  let c2 := toggle Update k c in
  Loop.cur c1 = Loop.cur c /\
  In (Loop.now c,
      StartStopMsg (timer.id (model.timer (Loop.cur c)))
                   (negb (running (Loop.cur c)))) (Loop.pending c1) /\
  model.timer (Loop.cur c2) =
    timer.set_running (model.timer (Loop.cur c))
                      (negb (running (Loop.cur c))) /\
  running (Loop.cur c2) = negb (running (Loop.cur c)) /\
  remaining (Loop.cur c2) = remaining (Loop.cur c) /\
  stopEnabled (Loop.cur c2) = running (Loop.cur c2) /\
  startEnabled (Loop.cur c2) = negb (running (Loop.cur c2)) /\
  keymap_fixed (model.keymap (Loop.cur c2)) /\
  toggle_live (Loop.cur c2) = true.
Proof.
  intros HK HS Hk Hf Hl Hp. cbv zeta.
  assert (E : command (model.keymap (Loop.cur c)) k = Some KStartStop).
  { rewrite (command_fixed _ _ Hf).
    unfold toggle_live, startEnabled, stopEnabled in Hl. rewrite Hl.
    destruct Hk as [-> | ->]; reflexivity. }
  destruct (handle_fields G Update c (KeyMsg k)) as (Ec1 & _ & Ep1 & _).
  rewrite (HK _ _ _ E) in Ec1, Ep1. cbn [fst snd] in Ec1, Ep1.
  unfold toggle.
  set (c1 := Loop.handle G Update c (KeyMsg k)) in *.
  rewrite Ec1.
  set (msg := StartStopMsg (timer.id (model.timer (Loop.cur c)))
                (negb (running (Loop.cur c)))).
  destruct (handle_fields G Update c1 msg) as (Ec2 & _).
  rewrite Ec1 in Ec2. unfold msg in Ec2. rewrite HS in Ec2. fold msg in Ec2.
  pose proof (keymap_fixed_keys_ok _ Hf) as Hko.
  destruct (own_StartStop_session (Loop.cur c)
              (negb (running (Loop.cur c))) Hko Hp) as (R & Rm & Hs & Hq).
  fold msg in R, Rm, Hs, Hq.
  destruct (on_StartStop_frame (Loop.cur c) msg) as (Et & _).
  unfold msg in Et at 2. rewrite own_StartStop in Et. cbn [fst] in Et.
  pose proof (on_StartStop_keymap (Loop.cur c) msg Hf) as Hf'.
  rewrite Ec2.
  split; [reflexivity|]. split.
  { rewrite Ep1. apply in_or_app. right. left. reflexivity. }
  split; [exact Et|]. split; [exact R|]. split; [exact Rm|].
  split; [rewrite Hs, R; reflexivity|].
  split; [rewrite Hq, R; reflexivity|].
  split; [exact Hf'|].
  unfold toggle_live. rewrite Hs, Hq.
  destruct (running (Loop.cur c)); reflexivity.
Qed.

Lemma toggle_twice (G : Type)
    (Update : time.Time -> G -> model.t -> Msg -> model.t * Cmd * G)
    (k : string) (c : Loop.Config G) :
  (forall now g m,
      command (model.keymap m) k = Some KStartStop ->
      Update now g m (KeyMsg k) = (m, timer.Toggle (model.timer m), g)) ->
  (forall now g m ID v,
      fst (fst (Update now g m (StartStopMsg ID v))) =
      fst (on_StartStop m (StartStopMsg ID v))) ->
  k = "s"%string \/ k = " "%string ->
  keymap_fixed (model.keymap (Loop.cur c)) ->
  toggle_live (Loop.cur c) = true ->
  0 < remaining (Loop.cur c) ->
  let c2 := toggle Update k c in
  let c4 := toggle Update k c2 in
  running (Loop.cur c2) = negb (running (Loop.cur c)) /\
  remaining (Loop.cur c2) = remaining (Loop.cur c) /\
  stopEnabled (Loop.cur c2) = running (Loop.cur c2) /\
  startEnabled (Loop.cur c2) = negb (running (Loop.cur c2)) /\
  model.timer (Loop.cur c4) = model.timer (Loop.cur c) /\
  stopEnabled (Loop.cur c4) = running (Loop.cur c) /\
  startEnabled (Loop.cur c4) = negb (running (Loop.cur c)).
Proof.
  intros HK HS Hk Hf Hl Hp. cbv zeta.
  destruct (toggle_once G Update k c HK HS Hk Hf Hl Hp)
    as (_ & _ & Et & R & Rm & Hs & Hq & Hf' & Hl').
  set (c2 := toggle Update k c) in *.
  assert (Hp' : 0 < remaining (Loop.cur c2)) by (rewrite Rm; exact Hp).
  destruct (toggle_once G Update k c2 HK HS Hk Hf' Hl' Hp')
    as (_ & _ & Et2 & R2 & _ & Hs2 & Hq2 & _).
  set (c4 := toggle Update k c2) in *.
  split; [exact R|]. split; [exact Rm|]. split; [exact Hs|].
  split; [exact Hq|].
  assert (Rb : negb (running (Loop.cur c2)) = running (Loop.cur c))
    by (rewrite R; apply negb_involutive).
  split; [|split].
  - rewrite Et2, Et, Rb. unfold running.
    rewrite (Running_field _ Hp). apply set_running_twice.
  - rewrite Hs2, R2. exact Rb.
  - rewrite Hq2, R2, Rb. reflexivity.
Qed.

Lemma V1_toggle_key (k : string) (now : time.Time) (g : V1.globals)
    (m : model.t) :
  command (model.keymap m) k = Some KStartStop ->
  V1.Update now g m (KeyMsg k) = (m, timer.Toggle (model.timer m), g).
Proof. intros E. unfold V1.Update. rewrite E. reflexivity. Qed.

Lemma V2_toggle_key (k : string) (now : time.Time) (g : V2.globals)
    (m : model.t) :
  command (model.keymap m) k = Some KStartStop ->
  V2.Update now g m (KeyMsg k) = (m, timer.Toggle (model.timer m), g).
Proof. intros E. unfold V2.Update. rewrite E. reflexivity. Qed.

Lemma V1_StartStop_case (now : time.Time) (g : V1.globals) (m : model.t)
    (ID : Z) (v : bool) :
  fst (fst (V1.Update now g m (StartStopMsg ID v))) =
  fst (on_StartStop m (StartStopMsg ID v)).
Proof. unfold V1.Update. destruct (on_StartStop m _); reflexivity. Qed.

Lemma V2_StartStop_case (now : time.Time) (g : V2.globals) (m : model.t)
    (ID : Z) (v : bool) :
  fst (fst (V2.Update now g m (StartStopMsg ID v))) =
  fst (on_StartStop m (StartStopMsg ID v)).
Proof. unfold V2.Update. destruct (on_StartStop m _); reflexivity. Qed.

(** X8 (toggle round trip).  In a reachable state with time left on the
    clock (and, in the first draft, Start or Stop enabled), the toggle key
    followed by the start/stop message it sends flips the running flag,
    keeps the remaining time and enables exactly the matching control;
    doing it twice gives back the timer as it was, with Stop enabled iff
    the clock was running.  Both drafts. *)
Theorem X8_toggle_round_trip (k : string) :
  k = "s"%string \/ k = " "%string ->
  (forall c : V1.Config,
      V1.reachable c -> toggle_live (Loop.cur c) = true ->
      0 < remaining (Loop.cur c) ->
      let c2 := toggle V1.Update k c in
      let c4 := toggle V1.Update k c2 in
      running (Loop.cur c2) = negb (running (Loop.cur c)) /\
      remaining (Loop.cur c2) = remaining (Loop.cur c) /\
      stopEnabled (Loop.cur c2) = running (Loop.cur c2) /\
      startEnabled (Loop.cur c2) = negb (running (Loop.cur c2)) /\
      model.timer (Loop.cur c4) = model.timer (Loop.cur c) /\
      stopEnabled (Loop.cur c4) = running (Loop.cur c) /\
      startEnabled (Loop.cur c4) = negb (running (Loop.cur c))) /\
  (forall c : V2.Config,
      V2.reachable c -> 0 < remaining (Loop.cur c) ->
      let c2 := toggle V2.Update k c in
      let c4 := toggle V2.Update k c2 in
      running (Loop.cur c2) = negb (running (Loop.cur c)) /\
      remaining (Loop.cur c2) = remaining (Loop.cur c) /\
      stopEnabled (Loop.cur c2) = running (Loop.cur c2) /\
      startEnabled (Loop.cur c2) = negb (running (Loop.cur c2)) /\
      model.timer (Loop.cur c4) = model.timer (Loop.cur c) /\
      stopEnabled (Loop.cur c4) = running (Loop.cur c) /\
      startEnabled (Loop.cur c4) = negb (running (Loop.cur c))).
Proof.
  intros Hk. split.
  - intros c Hc Hl Hp.
    destruct (V1_reachable_xinv c Hc) as (_ & Hf & _).
    apply (toggle_twice _ V1.Update k c (V1_toggle_key k) V1_StartStop_case
             Hk Hf Hl Hp).
  - intros c Hc Hp.
    destruct (V2_reachable_xinv c Hc) as (_ & Hf & _ & _ & _ & Hl).
    apply (toggle_twice _ V2.Update k c (V2_toggle_key k) V2_StartStop_case
             Hk Hf Hl Hp).
Qed.

(** Pause and resume at the first draft's start-up state. *)
Lemma X8_witness :
  running (Loop.cur (toggle V1.Update "s" (V1.boot 0))) = false /\
  model.timer
    (Loop.cur (toggle V1.Update "s" (toggle V1.Update "s" (V1.boot 0))))
  = model.timer (Loop.cur (V1.boot 0)).
Proof.
  destruct (proj1 (X8_toggle_round_trip "s" (or_introl eq_refl)) (V1.boot 0)
              (V1.reach_boot 0) eq_refl eq_refl) as (H1 & _ & _ & _ & H5 & _).
  split; [exact H1 | exact H5].
Defined.

(** ** What else [Update] does and does not do *)

(** X9 (where quitting comes from).  [quitting] goes from false to true
    only when a timeout message or a key taking the quit branch is
    processed; no other message sets it.  Both drafts. *)
Theorem X9_quitting_sources
    (now : time.Time) (g1 : V1.globals) (g2 : V2.globals) (m : model.t)
    (msg : Msg) :
  model.quitting m = false ->
  model.quitting (fst (fst (V1.Update now g1 m msg))) = true \/
  model.quitting (fst (fst (V2.Update now g2 m msg))) = true ->
  (exists id, msg = TimeoutMsg id) \/
  (exists k, msg = KeyMsg k /\ command (model.keymap m) k = Some KQuit).
Proof.
  intros Q H.
  destruct msg; try (left; eexists; reflexivity);
    unfold V1.Update, V2.Update in H; cbv beta iota in H.
  - exfalso. cbn [progress.SetPercent model.set_progress model.timer] in H.
    destruct (timer.Update (model.timer m) _) as [t cmd].
    simpl in H. destruct H; congruence.
  - exfalso.
    pose proof (on_StartStop_frame m (StartStopMsg ID running0))
      as (_ & E & _).
    destruct (on_StartStop m _) as [m' cmd]. simpl in *.
    destruct H; congruence.
  - right. exists k. split; [reflexivity|].
    destruct (command (model.keymap m) k) as [[]|]; try reflexivity;
      exfalso; simpl in H; destruct H; congruence.
  - exfalso.
    pose proof (on_Frame_frame m (FrameMsg id tag)) as (_ & _ & E & _).
    destruct (on_Frame m _) as [m' cmd]. simpl in *.
    destruct H; congruence.
  - exfalso. destruct (resize_frame m Width) as (_ & _ & E & _).
    simpl in H. destruct H; congruence.
  - exfalso. simpl in H. destruct H; congruence.
  - exfalso. simpl in H. destruct H; congruence.
Qed.

(** The quit key at the model [main] builds. *)
Lemma X9_witness :
  (exists id, KeyMsg "q" = TimeoutMsg id) \/
  (exists k, KeyMsg "q" = KeyMsg k /\
             command (model.keymap V1.main) k = Some KQuit).
Proof.
  apply (X9_quitting_sources 0 {| V1.percent := Fin 0; V1.start := 0 |}
           {| V2.timeout := time.Minute * 25; V2.percent := Fin 0;
              V2.timer_lastID := 1 |} V1.main (KeyMsg "q") eq_refl).
  left. reflexivity.
Defined.

(** X10 (width of the bar).  In every state either draft can reach the
    progress bar is at most [maxWidth] = 80 columns wide; a resize to a
    terminal of [w] columns sets it to [w - 8] capped at 80, with no lower
    bound (a terminal narrower than 8 columns gives a negative width). *)
Theorem X10_width_bounded (w h : Z) :
  - 2 ^ 63 + 8 <= w < 2 ^ 63 ->
  (forall c : V1.Config,
      V1.reachable c ->
      progress.Width (model.progress (Loop.cur c)) <= 80 /\
      progress.Width
        (model.progress
           (Loop.cur (Loop.handle _ V1.Update c (WindowSizeMsg w h))))
      = Z.min 80 (w - 8)) /\
  (forall c : V2.Config,
      V2.reachable c ->
      progress.Width (model.progress (Loop.cur c)) <= 80 /\
      progress.Width
        (model.progress
           (Loop.cur (Loop.handle _ V2.Update c (WindowSizeMsg w h))))
      = Z.min 80 (w - 8)).
Proof.
  intros Hw.
  assert (E : wrap64 (w - padding * 2 - 4) = w - 8).
  { unfold padding. rewrite wrap64_small by (unfold in_int64; lia). lia. }
  split; intros c Hc.
  - destruct (V1_reachable_xinv c Hc) as (_ & _ & Hb).
    split; [exact Hb|].
    destruct (handle_fields _ V1.Update c (WindowSizeMsg w h)) as (Ec & _).
    rewrite Ec. unfold V1.Update. cbn [fst].
    destruct (resize_frame (Loop.cur c) w)
      as (_ & _ & _ & _ & _ & _ & _ & _ & _ & Ew).
    rewrite Ew, E. reflexivity.
  - destruct (V2_reachable_xinv c Hc) as (_ & _ & Hb & _).
    split; [exact Hb|].
    destruct (handle_fields _ V2.Update c (WindowSizeMsg w h)) as (Ec & _).
    rewrite Ec. unfold V2.Update. cbn [fst].
    destruct (resize_frame (Loop.cur c) w)
      as (_ & _ & _ & _ & _ & _ & _ & _ & _ & Ew).
    rewrite Ew, E. reflexivity.
Qed.

(** A terminal five columns wide, at the first draft's start-up state. *)
Lemma X10_witness :
  progress.Width
    (model.progress
       (Loop.cur (Loop.handle _ V1.Update (V1.boot 0) (WindowSizeMsg 5 24))))
  = -3.
Proof.
  apply (proj1 (X10_width_bounded 5 24 ltac:(lia)) (V1.boot 0)
           (V1.reach_boot 0)).
Defined.

Lemma foreign_drops (t : timer.Model) (ID : Z) (msg : Msg) :
  ID <> 0 -> ID <> timer.id t ->
  (exists flag tg, msg = TickMsg ID flag tg) \/
  (exists v, msg = StartStopMsg ID v) ->
  timer.Update t msg = (t, Nil).
Proof.
  intros H0 Hi H.
  assert (F : timer.foreign ID t = true).
  { unfold timer.foreign.
    apply Z.eqb_neq in H0. apply Z.eqb_neq in Hi. rewrite H0, Hi.
    reflexivity. }
  destruct H as [(flag & tg & ->) | (v & ->)]; unfold timer.Update;
    rewrite F; [rewrite orb_true_r|]; reflexivity.
Qed.

(** X11 (a new timer per retarget, second draft).  In every reachable
    state of the second draft the reset, break and work keys install a
    timer whose id differs from the previous one's.  Tick and start/stop
    messages still addressed to the previous timer (whose id is not the
    broadcast id 0) then leave the new timer untouched: they neither count
    it down nor start or stop it. *)
Theorem X11_fresh_timer (k : string) (msg : Msg) :
  forall c : V2.Config,
    V2.reachable c ->
    retargets (model.keymap (Loop.cur c)) (KeyMsg k) = true ->
    let old := timer.id (model.timer (Loop.cur c)) in
    let c1 := Loop.handle _ V2.Update c (KeyMsg k) in
    timer.id (model.timer (Loop.cur c1)) <> old /\
    (old <> 0 ->
     (exists flag tg, msg = TickMsg old flag tg) \/
     (exists v, msg = StartStopMsg old v) ->
     model.timer (Loop.cur (Loop.handle _ V2.Update c1 msg)) =
     model.timer (Loop.cur c1)).
Proof.
  intros c Hc R. cbv zeta.
  destruct (V2_reachable_xinv c Hc) as (_ & _ & _ & Hid & Hr & _).
  set (c1 := Loop.handle _ V2.Update c (KeyMsg k)).
  assert (En : timer.id (model.timer (Loop.cur c1)) =
               wrap64 (V2.timer_lastID (Loop.glob c) + 1)).
  { destruct (handle_fields _ V2.Update c (KeyMsg k)) as (Ec & _).
    fold c1 in Ec. rewrite Ec. unfold V2.Update.
    unfold retargets in R.
    destruct (command (model.keymap (Loop.cur c)) k) as [[]|];
      try discriminate; reflexivity. }
  assert (Hne : timer.id (model.timer (Loop.cur c1)) <>
                timer.id (model.timer (Loop.cur c))).
  { rewrite En, Hid. apply wrap64_succ_neq. exact Hr. }
  split; [exact Hne|].
  intros H0 Hm.
  destruct (handle_fields _ V2.Update c1 msg) as (Ec & _). rewrite Ec.
  assert (Rm : retargets (model.keymap (Loop.cur c1)) msg = false).
  { destruct Hm as [(flag & tg & ->) | (v & ->)]; reflexivity. }
  rewrite (V2_Update_timer _ _ _ msg Rm).
  rewrite (foreign_drops _ _ msg H0 (fun E => Hne (eq_sym E)) Hm).
  reflexivity.
Qed.

(** The break key at the second draft's start-up state, and a tick still
    addressed to the first timer (id 1). *)
Lemma X11_witness :
  let c1 := Loop.handle _ V2.Update (V2.boot 0) (KeyMsg "p") in
  model.timer (Loop.cur (Loop.handle _ V2.Update c1 (TickMsg 1 false 0))) =
  model.timer (Loop.cur c1).
Proof.
  apply (proj2 (X11_fresh_timer "p" (TickMsg 1 false 0) (V2.boot 0)
                  (V2.reach_boot 0) eq_refl)).
  - discriminate.
  - left. exists false, 0. reflexivity.
Defined.

Lemma on_Frame_clock (G : Type)
    (Update : time.Time -> G -> model.t -> Msg -> model.t * Cmd * G)
    (c : Loop.Config G) (id tag : Z) :
  (forall now g m,
      fst (fst (Update now g m (FrameMsg id tag))) =
        fst (on_Frame m (FrameMsg id tag)) /\
      snd (Update now g m (FrameMsg id tag)) = g) ->
  let c' := Loop.handle G Update c (FrameMsg id tag) in
  clock c' = clock c /\
  model.keymap (Loop.cur c') = model.keymap (Loop.cur c) /\
  model.quitting (Loop.cur c') = model.quitting (Loop.cur c) /\
  Loop.glob c' = Loop.glob c /\
  progress.targetPercent (model.progress (Loop.cur c')) =
  progress.targetPercent (model.progress (Loop.cur c)) /\
  progress.Width (model.progress (Loop.cur c')) =
  progress.Width (model.progress (Loop.cur c)).
Proof.
  intros HU. cbv zeta.
  destruct (handle_fields G Update c (FrameMsg id tag))
    as (Ec & Eg & _ & _ & Et).
  destruct (HU (Loop.now c) (Loop.glob c) (Loop.cur c)) as (E1 & E2).
  destruct (on_Frame_frame (Loop.cur c) (FrameMsg id tag))
    as (Ft & Fk & Fq & Fp).
  pose proof (on_Frame_Width (Loop.cur c) (FrameMsg id tag)) as Fw.
  cbn [retargets] in Et.
  unfold clock, remaining, running, timedOut.
  rewrite Ec, Eg, Et, E1, E2, Ft, Fk, Fq, Fp, Fw.
  repeat split; reflexivity.
Qed.

(** X12 (messages that do not touch the session).  The one-minute
    [tickMsg] that [tickCmd] schedules reaches no case of [Update]: the
    whole state of the loop is as before and nothing is queued.  An
    animation frame of the progress bar changes neither the clock nor the
    key bindings, [quitting], the package-level variables, the bar's
    target or its width.  Both drafts. *)
Theorem X12_tickMsg_and_frames (t : time.Time) (id tag : Z) :
  (forall c : V1.Config,
      Loop.handle _ V1.Update c (tickMsg t) = c /\
      let c' := Loop.handle _ V1.Update c (FrameMsg id tag) in
      clock c' = clock c /\
      model.keymap (Loop.cur c') = model.keymap (Loop.cur c) /\
      model.quitting (Loop.cur c') = model.quitting (Loop.cur c) /\
      Loop.glob c' = Loop.glob c /\
      progress.targetPercent (model.progress (Loop.cur c')) =
      progress.targetPercent (model.progress (Loop.cur c)) /\
      progress.Width (model.progress (Loop.cur c')) =
      progress.Width (model.progress (Loop.cur c))) /\
  (forall c : V2.Config,
      Loop.handle _ V2.Update c (tickMsg t) = c /\
      let c' := Loop.handle _ V2.Update c (FrameMsg id tag) in
      clock c' = clock c /\
      model.keymap (Loop.cur c') = model.keymap (Loop.cur c) /\
      model.quitting (Loop.cur c') = model.quitting (Loop.cur c) /\
      Loop.glob c' = Loop.glob c /\
      progress.targetPercent (model.progress (Loop.cur c')) =
      progress.targetPercent (model.progress (Loop.cur c)) /\
      progress.Width (model.progress (Loop.cur c')) =
      progress.Width (model.progress (Loop.cur c))).
Proof.
  split; intros c; split.
  - apply handle_Nil; reflexivity.
  - apply on_Frame_clock. intros now g m. unfold V1.Update.
    destruct (on_Frame m _); split; reflexivity.
  - apply handle_Nil; reflexivity.
  - apply on_Frame_clock. intros now g m. unfold V2.Update.
    destruct (on_Frame m _); split; reflexivity.
Qed.

(** X13 (reset restarts the wall-clock progress, first draft).  After the
    reset key, a tick arriving [d] nanoseconds later computes [percent] as
    [d] over the 20 s work timeout, whatever time had elapsed before the
    reset. *)
Theorem X13_reset_restarts_progress
    (k : string) (d : time.Duration) (ID : Z) (flag : bool) (tg : Z) :
  0 <= d <= time.maxDuration ->
  forall c : V1.Config,
    command (model.keymap (Loop.cur c)) k = Some KReset ->
    let c1 := Loop.handle _ V1.Update c (KeyMsg k) in
    let c2 := Loop.handle _ V1.Update (Loop.advance _ d c1)
                (TickMsg ID flag tg) in
    exists q : Q,
      V1.percent (Loop.glob c2) = Fin q /\
      (q == inject_Z d / inject_Z (time.Second * 20))%Q.
Proof.
  intros Hd c E. cbv zeta.
  set (c1 := Loop.handle _ V1.Update c (KeyMsg k)).
  assert (Eg : V1.start (Loop.glob c1) = Loop.now c).
  { unfold c1, Loop.handle, V1.Update. rewrite E. reflexivity. }
  assert (En : Loop.now c1 = Loop.now c).
  { apply (handle_fields _ V1.Update c (KeyMsg k)). }
  destruct (handle_fields _ V1.Update (Loop.advance _ d c1)
              (TickMsg ID flag tg)) as (_ & Eg2 & _).
  rewrite Eg2.
  destruct (V1_Update_tick (Loop.now (Loop.advance _ d c1))
              (Loop.glob (Loop.advance _ d c1))
              (Loop.cur (Loop.advance _ d c1)) ID flag tg) as (Ep & _).
  rewrite Ep. unfold V1.progress_of.
  cbn [Loop.advance Loop.now Loop.glob]. rewrite Eg, En.
  assert (Es : time.Since (Loop.now c + d) (Loop.now c) = d).
  { unfold time.Since, time.Sub, time.maxDuration, time.minDuration in *.
    replace (Loop.now c + d - Loop.now c) with d by lia. lia. }
  rewrite Es.
  change (time.Seconds V1.timeout) with (Fin (20 # 1)).
  unfold time.Seconds, math.fin. rewrite div_finite by reflexivity.
  eexists. split; [reflexivity|].
  unfold math.fin. rewrite !Qred_correct.
  rewrite (Qmake_Qdiv d). unfold time.Second.
  change (inject_Z (1000000000 * 20)) with (inject_Z 20000000000).
  field.
Qed.

(** Reset at the first draft's start-up state, then a tick five seconds
    later. *)
Lemma X13_witness :
  exists q : Q,
    V1.percent
      (Loop.glob
         (Loop.handle _ V1.Update
            (Loop.advance _ (time.Second * 5)
               (Loop.handle _ V1.Update (V1.boot 0) (KeyMsg "r")))
            (TickMsg 1 false 0))) = Fin q /\
    (q == inject_Z (time.Second * 5) / inject_Z (time.Second * 20))%Q.
Proof.
  apply (X13_reset_restarts_progress "r" (time.Second * 5) 1 false 0
           ltac:(vm_compute; split; discriminate) (V1.boot 0) eq_refl).
Defined.
